(** * cpuidle driver registry (drivers/cpuidle/driver.c)

    A shallow embedding of the driver-registration layer of the cpuidle
    framework, together with the properties its specification states.

    The C code keeps three kinds of mutable data: the [struct cpuidle_driver]
    objects owned by the platform code and reached through pointers, the
    association slots (one per CPU, or a single global one, depending on
    [CONFIG_CPU_IDLE_MULTIPLE_DRIVERS]) and the effects on the rest of the
    kernel (broadcast-timer notifications, [WARN_ON] reports).  All of it is
    gathered in one [registry] record that every function threads through.
    A C execution with undefined behaviour (a dangling driver pointer, a NULL
    cpumask that is iterated, an index outside the [states] array) has no
    result: the functions return [None] there.

    Every exported function runs between [spin_lock(&cpuidle_driver_lock)]
    and [spin_unlock]; the embedding gives each of them its sequential
    meaning, that is, the effect of its critical section. *)

From Stdlib Require Import ZArith String List Lia.
From stdpp Require Import base option list gmap strings.

(** ** Machine integers *)

Definition INT_MAX : Z := 2147483647.
Definition INT_MIN : Z := -2147483648.

(** Arithmetic on [int] as the kernel is built (two's complement, 32 bits). *)
Definition wrap_int (z : Z) : Z := ((z + 2 ^ 31) mod 2 ^ 32 - 2 ^ 31)%Z.

Definition int_range (z : Z) : Prop := (INT_MIN ≤ z ≤ INT_MAX)%Z.

(** Error numbers, with the values of asm-generic/errno-base.h; the
    functions return their negation. *)
Definition ENODEV : Z := 19.
Definition EBUSY : Z := 16.
Definition EINVAL : Z := 22.

(** ** Build configuration and constants of headers outside this file

    The two [CONFIG_] switches select the [#ifdef] branches of driver.c.
    The other fields are what driver.c takes from headers it includes
    (cpumask.h, cpuidle.h): they are parameters of the development. *)

Record kconfig := Kconfig {
  CONFIG_CPU_IDLE_MULTIPLE_DRIVERS : bool;
  CONFIG_ARCH_HAS_CPU_RELAX : bool;
  (** number of CPU ids, the bound of every [for_each_cpu] *)
  nr_cpu_ids : nat;
  (** the bitmap behind [cpu_possible_mask] *)
  cpu_possible_mask : Z;
  CPUIDLE_FLAG_TIME_VALID : Z;
  CPUIDLE_FLAG_TIMER_STOP : Z;
  CPUIDLE_NAME_LEN : nat;
  CPUIDLE_DESC_LEN : nat
}.

(** ** Data model *)

(** Address of a [struct cpuidle_driver]; a pointer is [None] when NULL. *)
Abbreviation loc := positive.
Abbreviation ptr := (option loc).

(** Modelled from the spec: [struct cpumask] (cpumask.h), the set of
    units a driver claims; a bitmap, bit [c] standing for CPU [c]. *)
Abbreviation cpumask_t := Z.

(** The [enter] callbacks: the registry's own [poll_idle], or a function of
    the platform driver, which the registry stores and never calls. *)
Inductive enter_fn : Type :=
  | poll_idle
  | platform_enter (addr : N).

(** Modelled from the spec: [struct cpuidle_state] (cpuidle.h), with the
    fields of the spec's IdleState, which are the fields driver.c writes
    in [poll_idle_init].  [flags], [exit_latency] and [target_residency]
    are unsigned, [power_usage] is an [int]. *)
Record cpuidle_state := CpuidleState {
  name : string;
  desc : string;
  flags : Z;
  exit_latency : Z;
  power_usage : Z;
  target_residency : Z;
  disabled : bool;
  enter : option enter_fn
}.

(** Modelled from the spec: [struct cpuidle_driver] (cpuidle.h), with the
    fields driver.c reads and writes: the reference count, the one-bit
    broadcast-timer flag, the array of states with the number of entries
    in use, and the pointer to the mask ([None] when NULL). *)
Record cpuidle_driver := CpuidleDriver {
  refcnt : Z;
  bctimer : bool;
  states : list cpuidle_state;
  state_count : Z;
  cpumask : option cpumask_t
}.

(** The second argument of [clockevents_notify]. *)
Inductive clock_evt_notify : Type :=
  | CLOCK_EVT_NOTIFY_BROADCAST_ON
  | CLOCK_EVT_NOTIFY_BROADCAST_OFF.

Record registry := Registry {
  (** [DEFINE_PER_CPU(struct cpuidle_driver *, cpuidle_drivers)];
      a CPU without a key holds NULL (of this slot array and the global
      slot below, a build has the one its configuration selects) *)
  cpuidle_drivers : gmap nat loc;
  (** [static struct cpuidle_driver *cpuidle_curr_driver] *)
  cpuidle_curr_driver : ptr;
  (** the driver objects, by address *)
  mem : gmap loc cpuidle_driver;
  (** what [cpuidle_disabled()] returns (cpuidle.c): the framework's
      global switch *)
  off : bool;
  (** the calls of [on_each_cpu_mask(mask, cpuidle_setup_broadcast_timer,
      reason, 1)], oldest first *)
  broadcast_calls : list (clock_evt_notify * cpumask_t);
  (** how many [WARN_ON]s fired *)
  warnings : nat
}.

Definition set_cpuidle_drivers (pc : gmap nat loc) (r : registry) : registry :=
  Registry pc (cpuidle_curr_driver r) (mem r) (off r)
           (broadcast_calls r) (warnings r).

Definition set_cpuidle_curr_driver (p : ptr) (r : registry) : registry :=
  Registry (cpuidle_drivers r) p (mem r) (off r)
           (broadcast_calls r) (warnings r).

Definition store (l : loc) (d : cpuidle_driver) (r : registry) : registry :=
  Registry (cpuidle_drivers r) (cpuidle_curr_driver r) (<[l:=d]> (mem r))
           (off r) (broadcast_calls r) (warnings r).

Definition set_refcnt (z : Z) (d : cpuidle_driver) : cpuidle_driver :=
  CpuidleDriver z (bctimer d) (states d) (state_count d) (cpumask d).

Definition set_bctimer (b : bool) (d : cpuidle_driver) : cpuidle_driver :=
  CpuidleDriver (refcnt d) b (states d) (state_count d) (cpumask d).

Definition set_states (l : list cpuidle_state) (d : cpuidle_driver)
  : cpuidle_driver :=
  CpuidleDriver (refcnt d) (bctimer d) l (state_count d) (cpumask d).

Definition set_cpumask (m : option cpumask_t) (d : cpuidle_driver)
  : cpuidle_driver :=
  CpuidleDriver (refcnt d) (bctimer d) (states d) (state_count d) m.

(** Modelled from the spec: [WARN_ON(cond)] (bug.h) reports the
    programming error when [cond] holds, and evaluates to [cond]. *)
Definition WARN_ON (cond : bool) (r : registry) : bool * registry :=
  (cond,
   if cond
   then Registry (cpuidle_drivers r) (cpuidle_curr_driver r) (mem r) (off r)
                 (broadcast_calls r) (S (warnings r))
   else r).

(** Modelled from the spec: the broadcast-timer coordinator.
    [on_each_cpu_mask(mask, cpuidle_setup_broadcast_timer, reason, 1)] runs
    [clockevents_notify(reason, &cpu)] on every CPU of [mask] and waits;
    the registry records the call with its mask. *)
Definition on_each_cpu_mask (m : cpumask_t) (reason : clock_evt_notify)
    (r : registry) : registry :=
  Registry (cpuidle_drivers r) (cpuidle_curr_driver r) (mem r) (off r)
           (broadcast_calls r ++ [(reason, m)]) (warnings r).

(** [snprintf(dst, size, src)] for a literal [src]: at most [size - 1]
    characters are stored, and nothing at all when [size] is 0. *)
Definition snprintf (dst : string) (size : nat) (src : string) : string :=
  match size with
  | O => dst
  | S k => substring 0 k src
  end.

(** [flags & flag] is non-zero. *)
Definition has_flag (fl flag : Z) : bool := negb (Z.land fl flag =? 0)%Z.

(** Modelled from the spec: [for_each_cpu(cpu, mask)] (cpumask.h) scans
    every unit of the mask.  The CPUs it visits, in the order it visits
    them: the set bits of [mask] below [nr_cpu_ids], ascending. *)
Definition for_each_cpu (K : kconfig) (m : cpumask_t) : list nat :=
  filter (λ cpu, Is_true (Z.testbit m (Z.of_nat cpu))) (seq 0 (nr_cpu_ids K)).

(** ** The association slots, with [CONFIG_CPU_IDLE_MULTIPLE_DRIVERS] *)

Module MultipleDrivers.
Section Slots.

Variable K : kconfig.

Definition __cpuidle_get_cpu_driver (r : registry) (cpu : nat) : ptr :=
  cpuidle_drivers r !! cpu.

(** The loop of [__cpuidle_unset_driver] over the CPUs still to visit. *)
Fixpoint unset_driver_loop (drv : loc) (cpus : list nat) (r : registry)
  : registry :=
  match cpus with
  | [] => r
  | cpu :: rest =>
      if decide (Some drv ≠ __cpuidle_get_cpu_driver r cpu)
      then unset_driver_loop drv rest r
      else unset_driver_loop drv rest
             (set_cpuidle_drivers (delete cpu (cpuidle_drivers r)) r)
  end.

Definition __cpuidle_unset_driver (drv : loc) (r : registry)
  : option registry :=
  d ← mem r !! drv;
  m ← cpumask d;
  Some (unset_driver_loop drv (for_each_cpu K m) r).

(** The loop of [__cpuidle_set_driver] over the CPUs still to visit. *)
Fixpoint set_driver_loop (drv : loc) (cpus : list nat) (r : registry)
  : option (Z * registry) :=
  match cpus with
  | [] => Some (0%Z, r)
  | cpu :: rest =>
      match __cpuidle_get_cpu_driver r cpu with
      | Some _ =>
          r' ← __cpuidle_unset_driver drv r;
          Some ((- EBUSY)%Z, r')
      | None =>
          set_driver_loop drv rest
            (set_cpuidle_drivers (<[cpu:=drv]> (cpuidle_drivers r)) r)
      end
  end.

Definition __cpuidle_set_driver (drv : loc) (r : registry)
  : option (Z * registry) :=
  d ← mem r !! drv;
  m ← cpumask d;
  set_driver_loop drv (for_each_cpu K m) r.

End Slots.
End MultipleDrivers.

(** ** The association slot, without [CONFIG_CPU_IDLE_MULTIPLE_DRIVERS] *)

Module SingleDriver.

Definition __cpuidle_get_cpu_driver (r : registry) (cpu : nat) : ptr :=
  cpuidle_curr_driver r.

Definition __cpuidle_set_driver (drv : loc) (r : registry)
  : option (Z * registry) :=
  match cpuidle_curr_driver r with
  | Some _ => Some ((- EBUSY)%Z, r)
  | None => Some (0%Z, set_cpuidle_curr_driver (Some drv) r)
  end.

Definition __cpuidle_unset_driver (drv : loc) (r : registry)
  : option registry :=
  if decide (Some drv = cpuidle_curr_driver r)
  then Some (set_cpuidle_curr_driver None r)
  else Some r.

End SingleDriver.

(** ** The registry *)

Section Driver.

Variable K : kconfig.

Definition __cpuidle_get_cpu_driver (r : registry) (cpu : nat) : ptr :=
  if CONFIG_CPU_IDLE_MULTIPLE_DRIVERS K
  then MultipleDrivers.__cpuidle_get_cpu_driver r cpu
  else SingleDriver.__cpuidle_get_cpu_driver r cpu.

Definition __cpuidle_unset_driver (drv : loc) (r : registry)
  : option registry :=
  if CONFIG_CPU_IDLE_MULTIPLE_DRIVERS K
  then MultipleDrivers.__cpuidle_unset_driver K drv r
  else SingleDriver.__cpuidle_unset_driver drv r.

Definition __cpuidle_set_driver (drv : loc) (r : registry)
  : option (Z * registry) :=
  if CONFIG_CPU_IDLE_MULTIPLE_DRIVERS K
  then MultipleDrivers.__cpuidle_set_driver K drv r
  else SingleDriver.__cpuidle_set_driver drv r.

(** The loop of [__cpuidle_driver_init], entered with index [i]: it ends
    with [true] at the [break], with [false] when [i] falls below 0. *)
Fixpoint timer_stop_scan (sts : list cpuidle_state) (i : nat) : option bool :=
  s ← sts !! i;
  if has_flag (flags s) (CPUIDLE_FLAG_TIMER_STOP K)
  then Some true
  else match i with
       | O => Some false
       | S j => timer_stop_scan sts j
       end.

Definition __cpuidle_driver_init (drv : loc) (r : registry)
  : option registry :=
  d ← mem r !! drv;
  let d := set_refcnt 0 d in
  let d := match cpumask d with
           | None => set_cpumask (Some (cpu_possible_mask K)) d
           | Some _ => d
           end in
  let i := wrap_int (state_count d - 1) in
  found ← (if (0 <=? i)%Z then timer_stop_scan (states d) (Z.to_nat i)
           else Some false);
  let d := if found : bool then set_bctimer true d else d in
  Some (store drv d r).

Definition poll_idle_init (drv : loc) (r : registry) : option registry :=
  if CONFIG_ARCH_HAS_CPU_RELAX K then
    d ← mem r !! drv;
    state ← states d !! 0;
    let state :=
      CpuidleState
        (snprintf (name state) (CPUIDLE_NAME_LEN K) "POLL")
        (snprintf (desc state) (CPUIDLE_DESC_LEN K) "CPUIDLE CORE POLL IDLE")
        (CPUIDLE_FLAG_TIME_VALID K)
        0
        (-1)
        0
        false
        (Some poll_idle) in
    Some (store drv (set_states (<[0:=state]> (states d)) d) r)
  else Some r.

Definition __cpuidle_register_driver (drv : ptr) (r : registry)
  : option (Z * registry) :=
  match drv with
  | None => Some ((- EINVAL)%Z, r)
  | Some l =>
      d ← mem r !! l;
      if (state_count d =? 0)%Z then Some ((- EINVAL)%Z, r)
      else if off r then Some ((- ENODEV)%Z, r)
      else
        r ← __cpuidle_driver_init l r;
        '(ret, r) ← __cpuidle_set_driver l r;
        if negb (ret =? 0)%Z then Some (ret, r)
        else
          d ← mem r !! l;
          r ← (if bctimer d
               then m ← cpumask d;
                    Some (on_each_cpu_mask m CLOCK_EVT_NOTIFY_BROADCAST_ON r)
               else Some r);
          r ← poll_idle_init l r;
          Some (0%Z, r)
  end.

Definition __cpuidle_unregister_driver (drv : ptr) (r : registry)
  : option registry :=
  l ← drv;
  d ← mem r !! l;
  let '(w, r) := WARN_ON (0 <? refcnt d)%Z r in
  if w then Some r
  else
    r ← (if bctimer d
         then let r := store l (set_bctimer false d) r in
              m ← cpumask d;
              Some (on_each_cpu_mask m CLOCK_EVT_NOTIFY_BROADCAST_OFF r)
         else Some r);
    __cpuidle_unset_driver l r.

Definition cpuidle_register_driver (drv : ptr) (r : registry)
  : option (Z * registry) :=
  __cpuidle_register_driver drv r.

Definition cpuidle_unregister_driver (drv : ptr) (r : registry)
  : option registry :=
  __cpuidle_unregister_driver drv r.

(** [cpu] is the processor the caller runs on ([get_cpu()]). *)
Definition cpuidle_get_driver (cpu : nat) (r : registry) : ptr :=
  __cpuidle_get_cpu_driver r cpu.

(** [dev] is the [cpu] field of the device, [None] for a NULL device. *)
Definition cpuidle_get_cpu_driver (dev : option nat) (r : registry) : ptr :=
  match dev with
  | None => None
  | Some cpu => __cpuidle_get_cpu_driver r cpu
  end.

Definition cpuidle_driver_ref (cpu : nat) (r : registry)
  : option (ptr * registry) :=
  match cpuidle_get_driver cpu r with
  | Some l =>
      d ← mem r !! l;
      Some (Some l, store l (set_refcnt (wrap_int (refcnt d + 1)) d) r)
  | None => Some (None, r)
  end.

Definition cpuidle_driver_unref (cpu : nat) (r : registry)
  : option registry :=
  match cpuidle_get_driver cpu r with
  | Some l =>
      d ← mem r !! l;
      let '(w, r) := WARN_ON (refcnt d <=? 0)%Z r in
      if negb w
      then Some (store l (set_refcnt (wrap_int (refcnt d - 1)) d) r)
      else Some r
  | None => Some r
  end.

(** ** Runs of registry operations *)

Inductive op : Type :=
  | Register (drv : ptr)
  | Unregister (drv : ptr)
  | Acquire (cpu : nat)
  | Release (cpu : nat).

Definition step (o : op) (r : registry) : option registry :=
  match o with
  | Register drv => snd <$> cpuidle_register_driver drv r
  | Unregister drv => cpuidle_unregister_driver drv r
  | Acquire cpu => snd <$> cpuidle_driver_ref cpu r
  | Release cpu => cpuidle_driver_unref cpu r
  end.

Fixpoint run (os : list op) (r : registry) : option registry :=
  match os with
  | [] => Some r
  | o :: os => r' ← step o r; run os r'
  end.

End Driver.

(** * Vocabulary of the specification *)

(** What an operation leaves alone besides the per-CPU slots. *)
Definition same_but_slots (r r' : registry) : Prop :=
  cpuidle_curr_driver r' = cpuidle_curr_driver r ∧ mem r' = mem r ∧
  off r' = off r ∧ broadcast_calls r' = broadcast_calls r ∧
  warnings r' = warnings r.

(** What an operation leaves alone besides the driver objects. *)
Definition same_but_mem (r r' : registry) : Prop :=
  cpuidle_drivers r' = cpuidle_drivers r ∧
  cpuidle_curr_driver r' = cpuidle_curr_driver r ∧
  off r' = off r ∧ broadcast_calls r' = broadcast_calls r ∧
  warnings r' = warnings r.

(** [state_count] is a C [int] that counts entries of the [states] array. *)
Definition wf_driver (d : cpuidle_driver) : Prop :=
  (0 ≤ state_count d ≤ INT_MAX)%Z ∧
  (state_count d ≤ Z.of_nat (length (states d)))%Z.

(** The state table of a driver: the first [state_count] states. *)
Definition state_table (d : cpuidle_driver) : list cpuidle_state :=
  take (Z.to_nat (state_count d)) (states d).

Section Vocabulary.

Variable K : kconfig.

(** Unit [cpu] is associated with the driver at [l]. *)
Definition associated (r : registry) (cpu : nat) (l : loc) : Prop :=
  __cpuidle_get_cpu_driver K r cpu = Some l.

(** The units of a mask. *)
Definition units (m : cpumask_t) : list nat := for_each_cpu K m.

(** The mask a driver is registered with: its own, or all possible units. *)
Definition mask_of (d : cpuidle_driver) : cpumask_t :=
  default (cpu_possible_mask K) (cpumask d).

Definition timer_stop (s : cpuidle_state) : bool :=
  has_flag (flags s) (CPUIDLE_FLAG_TIMER_STOP K).

(** Some state of the table carries [TIMER_STOP]. *)
Definition needs_timer_stop (d : cpuidle_driver) : bool :=
  existsb timer_stop (state_table d).

(** The driver object [__cpuidle_driver_init] leaves behind when the
    broadcast-timer flag ends up as [b]. *)
Definition init_with (b : bool) (d : cpuidle_driver) : cpuidle_driver :=
  CpuidleDriver 0 b (states d) (state_count d) (Some (mask_of d)).

Definition driver_after_init (d : cpuidle_driver) : cpuidle_driver :=
  init_with (needs_timer_stop d || bctimer d) d.

(** The polling state [poll_idle_init] writes over the state [s]. *)
Definition poll_state (s : cpuidle_state) : cpuidle_state :=
  CpuidleState
    (snprintf (name s) (CPUIDLE_NAME_LEN K) "POLL")
    (snprintf (desc s) (CPUIDLE_DESC_LEN K) "CPUIDLE CORE POLL IDLE")
    (CPUIDLE_FLAG_TIME_VALID K) 0 (-1) 0 false (Some poll_idle).

Definition with_poll_state (sts : list cpuidle_state) : list cpuidle_state :=
  match sts with
  | [] => []
  | s :: rest => poll_state s :: rest
  end.

(** The driver object a successful registration leaves behind, from the
    object its initialisation gave. *)
Definition finalize (d1 : cpuidle_driver) : cpuidle_driver :=
  if CONFIG_ARCH_HAS_CPU_RELAX K
  then set_states (with_poll_state (states d1)) d1
  else d1.

(** The calls to the broadcast-timer coordinator a registration makes. *)
Definition enable_calls (b : bool) (d : cpuidle_driver)
  : list (clock_evt_notify * cpumask_t) :=
  if b then [(CLOCK_EVT_NOTIFY_BROADCAST_ON, mask_of d)] else [].

(** The four ways [cpuidle_register_driver] ends for the driver [d] at
    [l], with the value it returns and the registry it leaves. *)
Inductive register_outcome (l : loc) (d : cpuidle_driver) (r : registry)
  : Z → registry → Prop :=
  | RegInvalid :
      state_count d = 0%Z →
      register_outcome l d r (- EINVAL)%Z r
  | RegDisabled :
      state_count d ≠ 0%Z → off r = true →
      register_outcome l d r (- ENODEV)%Z r
  | RegBusy (b : bool) (r' : registry) :
      state_count d ≠ 0%Z → off r = false →
      (bctimer d = true → b = true) →
      (wf_driver d → b = needs_timer_stop d || bctimer d) →
      (if CONFIG_CPU_IDLE_MULTIPLE_DRIVERS K
       then (∃ cpu, cpu ∈ units (mask_of d) ∧
                    cpuidle_drivers r !! cpu ≠ None) ∧
            r' = MultipleDrivers.unset_driver_loop l (units (mask_of d))
                   (store l (init_with b d) r)
       else cpuidle_curr_driver r ≠ None ∧
            r' = store l (init_with b d) r) →
      register_outcome l d r (- EBUSY)%Z r'
  | RegOk (b : bool) (r' : registry) :
      state_count d ≠ 0%Z → off r = false →
      (bctimer d = true → b = true) →
      (wf_driver d → b = needs_timer_stop d || bctimer d) →
      (CONFIG_ARCH_HAS_CPU_RELAX K = true → states d ≠ []) →
      mem r' = <[l:=finalize (init_with b d)]> (mem r) →
      off r' = off r →
      broadcast_calls r' = broadcast_calls r ++ enable_calls b d →
      warnings r' = warnings r →
      (if CONFIG_CPU_IDLE_MULTIPLE_DRIVERS K
       then (∀ cpu, cpu ∈ units (mask_of d) →
                    cpuidle_drivers r !! cpu = None) ∧
            (∀ cpu, cpuidle_drivers r' !! cpu =
                    if decide (cpu ∈ units (mask_of d)) then Some l
                    else cpuidle_drivers r !! cpu) ∧
            cpuidle_curr_driver r' = cpuidle_curr_driver r
       else cpuidle_curr_driver r = None ∧
            cpuidle_curr_driver r' = Some l ∧
            cpuidle_drivers r' = cpuidle_drivers r) →
      register_outcome l d r 0%Z r'.

(** The driver [d] at [l] is registered over the mask [m]: every unit of
    the mask is associated with it. *)
Definition registered (r : registry) (l : loc) (d : cpuidle_driver)
    (m : cpumask_t) : Prop :=
  mem r !! l = Some d ∧ cpumask d = Some m ∧
  ∀ cpu, cpu ∈ units m → associated r cpu l.

(** Nothing stands in the way of claiming the mask [m]: with one slot per
    CPU every unit of the mask is free, with the global slot that slot is. *)
Definition mask_free (r : registry) (m : cpumask_t) : Prop :=
  if CONFIG_CPU_IDLE_MULTIPLE_DRIVERS K
  then ∀ cpu, cpu ∈ units m → cpuidle_drivers r !! cpu = None
  else cpuidle_curr_driver r = None.

(** The registry a run of operations leaves ([r] itself if the run has no
    result). *)
Definition after (os : list op) (r : registry) : registry :=
  default r (run K os r).

End Vocabulary.

(** * Sample configurations and registries *)

(** Four CPUs, all possible; one slot per CPU, or one slot for all. *)
Definition K_percpu : kconfig := Kconfig true true 4 15 1 4 16 32.
Definition K_global : kconfig := Kconfig false true 4 15 1 4 16 32.

Definition state_shallow : cpuidle_state :=
  CpuidleState "C1" "clock gating" 1 1 10 1 false (Some (platform_enter 1)).

(** A state that stops the local timer (flags [TIME_VALID | TIMER_STOP]). *)
Definition state_deep : cpuidle_state :=
  CpuidleState "C2" "power down" 5 10 5 100 false (Some (platform_enter 2)).

(** Driver A claims CPUs 0 and 1, driver B claims CPUs 1 and 2. *)
Definition drv_A : cpuidle_driver :=
  CpuidleDriver 0 false [state_shallow; state_deep] 2 (Some 3%Z).
Definition drv_B : cpuidle_driver :=
  CpuidleDriver 0 false [state_shallow; state_shallow] 2 (Some 6%Z).

(** Driver C leaves its mask NULL; its second state stops the timer. *)
Definition drv_C : cpuidle_driver :=
  CpuidleDriver 0 false [state_shallow; state_deep] 2 None.

(** A driver object whose broadcast-timer flag is set although none of
    its states stops the timer (a registration refused with [-EBUSY]
    leaves the flag set; the platform code may then change the states). *)
Definition drv_stale : cpuidle_driver :=
  CpuidleDriver 0 true [state_shallow; state_shallow] 2 (Some 3%Z).

(** A driver whose mask has no unit. *)
Definition drv_E : cpuidle_driver :=
  CpuidleDriver 0 false [state_shallow; state_shallow] 2 (Some 0%Z).

Definition addr_A : loc := 1%positive.
Definition addr_B : loc := 2%positive.
Definition addr_C : loc := 3%positive.
Definition addr_stale : loc := 4%positive.
Definition addr_E : loc := 5%positive.

Definition ptr_A : ptr := Some addr_A.
Definition ptr_B : ptr := Some addr_B.

(** All driver objects exist, nothing is registered. *)
Definition boot : registry :=
  Registry ∅ None
    (<[addr_A:=drv_A]> (<[addr_B:=drv_B]> (<[addr_C:=drv_C]>
      (<[addr_stale:=drv_stale]> (<[addr_E:=drv_E]> ∅)))))
    false [] 0.

(** A has been registered. *)
Definition reg_A : registry := after K_percpu [Register (Some addr_A)] boot.

(** A has been registered and CPU 0 holds a reference to it. *)
Definition reg_A_held : registry :=
  after K_percpu [Register (Some addr_A); Acquire 0] boot.

(** The object of driver A once registered. *)
Definition drv_A_registered : cpuidle_driver :=
  finalize K_percpu (driver_after_init K_percpu drv_A).

(** A release on [cpu] is reported. *)
Definition release_reported (K : kconfig) (cpu : nat) (r : registry) : Prop :=
  ∃ r', cpuidle_driver_unref K cpu r = Some r' ∧
        warnings r' = S (warnings r).

(** An operation that neither registers nor unregisters the driver at [l]. *)
Definition leaves_registration (l : loc) (o : op) : Prop :=
  o ≠ Register (Some l) ∧ o ≠ Unregister (Some l).

(** * The big.LITTLE cpufreq header (drivers/cpufreq/arm_big_little.h) *)

Module BigLittle.

(** Currently only two clusters are supported. *)
Definition A15_CLUSTER : Z := 0.
Definition A7_CLUSTER : Z := 1.
Definition MAX_CLUSTERS : Z := 2.

Section Header.

(** The [#ifdef] of the header. *)
Variable CONFIG_BL_SWITCHER : bool.

(** [topology_physical_package_id(cpu)] of topology.h, the cluster a CPU
    sits in: a parameter of the development. *)
Variable topology_physical_package_id : Z → Z.

(** The macros take the value of the global [bL_switching_enabled] and give
    it back; without [CONFIG_BL_SWITCHER] there is no such variable, and the
    value passed along is ignored. *)
Definition is_bL_switching_enabled (bL_switching_enabled : bool) : bool :=
  if CONFIG_BL_SWITCHER then bL_switching_enabled else false.

Definition set_switching_enabled (x : bool) (bL_switching_enabled : bool)
  : bool :=
  if CONFIG_BL_SWITCHER then x else bL_switching_enabled.

Definition cpu_to_cluster (cpu : Z) (bL_switching_enabled : bool) : Z :=
  if is_bL_switching_enabled bL_switching_enabled
  then MAX_CLUSTERS
  else topology_physical_package_id cpu.

End Header.

(** A platform with CPUs 0 and 1 in the A15 cluster, the others in the A7
    cluster. *)
Definition two_clusters (cpu : Z) : Z :=
  if (cpu <? 2)%Z then A15_CLUSTER else A7_CLUSTER.

End BigLittle.

(** * Further vocabulary *)

(** Every association leads to a live driver object whose mask is set and
    holds the unit. *)
Definition slots_in_masks (K : kconfig) (r : registry) : Prop :=
  ∀ cpu l, associated K r cpu l →
           ∃ d m, mem r !! l = Some d ∧ cpumask d = Some m ∧ cpu ∈ units K m.

(** The return value of [cpuidle_register_driver], if it returns. *)
Definition register_code (K : kconfig) (drv : ptr) (r : registry)
  : option Z :=
  fst <$> cpuidle_register_driver K drv r.

(** [n] acquisitions on [cpu], then [n] releases. *)
Definition hold_and_release (cpu n : nat) : list op :=
  repeat (Acquire cpu) n ++ repeat (Release cpu) n.

(** A driver for CPUs 2 and 3, and the registry at boot with its object. *)
Definition drv_D : cpuidle_driver :=
  CpuidleDriver 0 false [state_shallow; state_shallow] 2 (Some 12%Z).
Definition addr_D : loc := 6%positive.
Definition boot_D : registry := store addr_D drv_D boot.

(** A driver whose timer-stopping state sits at index 0, the entry the
    polling state takes, and the registry at boot with its object. *)
Definition drv_F : cpuidle_driver :=
  CpuidleDriver 0 false [state_deep; state_shallow] 2 (Some 3%Z).
Definition addr_F : loc := 7%positive.
Definition boot_F : registry := store addr_F drv_F boot.


(** An operation of the idle-entry path: an acquisition or a release. *)
Definition counts_only (o : op) : Prop :=
  ∃ cpu, o = Acquire cpu ∨ o = Release cpu.

(** A build without [CONFIG_ARCH_HAS_CPU_RELAX]: no polling state. *)
Definition K_norelax : kconfig := Kconfig true false 4 15 1 4 16 32.

(** * Registries the operations lead to *)



(** The loop of [__cpuidle_driver_init] starts at an index of the states
    array, or does not start at all. *)
Definition scan_in_bounds (d : cpuidle_driver) : Prop :=
  (wrap_int (state_count d - 1) < 0)%Z ∨
  Z.to_nat (wrap_int (state_count d - 1)) < length (states d).




(** As many acquisitions on CPU 0 as an [int] can count. *)
Definition acquire_INT_MAX : list op := repeat (Acquire 0) (Z.to_nat INT_MAX).

(** A is registered and its reference count stands at [INT_MAX]. *)
Definition drv_A_saturated : cpuidle_driver :=
  set_refcnt INT_MAX drv_A_registered.
Definition reg_A_saturated : registry := store addr_A drv_A_saturated reg_A.

(** * Properties *)

(** ** Integers and CPU masks *)

Lemma wrap_int_id (z : Z) : int_range z → wrap_int z = z.
Proof.
  unfold int_range, INT_MIN, INT_MAX, wrap_int. intros Hz.
  rewrite Z.mod_small; lia.
Qed.

Lemma elem_of_for_each_cpu (K : kconfig) (m : cpumask_t) (cpu : nat) :
  cpu ∈ for_each_cpu K m ↔
  cpu < nr_cpu_ids K ∧ Z.testbit m (Z.of_nat cpu) = true.
Proof.
  unfold for_each_cpu. rewrite list_elem_of_filter, elem_of_seq.
  rewrite Is_true_true. intuition lia.
Qed.

Lemma NoDup_for_each_cpu (K : kconfig) (m : cpumask_t) :
  NoDup (for_each_cpu K m).
Proof. apply NoDup_filter, NoDup_seq. Qed.

(** Two registries with the same components are the same registry. *)
Lemma registry_eq (r r' : registry) :
  cpuidle_drivers r = cpuidle_drivers r' →
  cpuidle_curr_driver r = cpuidle_curr_driver r' →
  mem r = mem r' → off r = off r' →
  broadcast_calls r = broadcast_calls r' → warnings r = warnings r' →
  r = r'.
Proof. destruct r, r'; simpl; intros; subst; reflexivity. Qed.

Lemma same_but_slots_refl r : same_but_slots r r.
Proof. repeat split. Qed.

Lemma same_but_slots_trans r1 r2 r3 :
  same_but_slots r1 r2 → same_but_slots r2 r3 → same_but_slots r1 r3.
Proof. unfold same_but_slots. intuition congruence. Qed.

Lemma same_but_slots_set pc r : same_but_slots r (set_cpuidle_drivers pc r).
Proof. repeat split. Qed.

(** ** Claiming and releasing per-CPU slots *)

Module MultipleDriversFacts.
Import MultipleDrivers.

Lemma unset_driver_loop_frame drv cpus r :
  same_but_slots r (unset_driver_loop drv cpus r).
Proof.
  revert r. induction cpus as [|cpu rest IH]; intros r;
    cbn [unset_driver_loop].
  - apply same_but_slots_refl.
  - case_decide; [apply IH|].
    eapply same_but_slots_trans; [apply same_but_slots_set | apply IH].
Qed.

(** The slots after the release loop: a visited CPU that pointed to [drv]
    is cleared, every other slot is as before. *)
Lemma unset_driver_loop_lookup drv cpus r cpu :
  cpuidle_drivers (unset_driver_loop drv cpus r) !! cpu =
  if decide (cpu ∈ cpus ∧ cpuidle_drivers r !! cpu = Some drv)
  then None else cpuidle_drivers r !! cpu.
Proof.
  revert r. induction cpus as [|c rest IH]; intros r; cbn [unset_driver_loop].
  - rewrite decide_False; [done|]. intros [H _]. by apply elem_of_nil in H.
  - unfold __cpuidle_get_cpu_driver.
    destruct (decide (Some drv ≠ cpuidle_drivers r !! c)) as [Hne|Heq].
    + rewrite IH.
      destruct (decide (cpu ∈ rest ∧ cpuidle_drivers r !! cpu = Some drv))
        as [[Hin Hl]|Hn].
      * rewrite decide_True; [done|]. split; [by right|done].
      * rewrite decide_False; [done|]. intros [Hin Hl].
        apply elem_of_cons in Hin. destruct Hin as [->|Hin]; [congruence|].
        by apply Hn.
    + assert (cpuidle_drivers r !! c = Some drv) as Hc0
        by (destruct (cpuidle_drivers r !! c) as [x|] eqn:E;
            [destruct (decide (x = drv)) as [->|]; [done|]|];
            exfalso; apply Heq; congruence).
      rewrite IH. cbn [set_cpuidle_drivers cpuidle_drivers].
      destruct (decide (cpu = c)) as [->|Hc].
      * rewrite lookup_delete_eq.
        rewrite decide_False by (intros [_ ?]; done).
        rewrite decide_True; [done|]. split; [by left|done].
      * rewrite lookup_delete_ne by done.
        destruct (decide (cpu ∈ rest ∧ cpuidle_drivers r !! cpu = Some drv))
          as [[Hin Hl]|Hn].
        -- rewrite decide_True; [done|]. split; [by right|done].
        -- rewrite decide_False; [done|]. intros [Hin Hl].
           apply elem_of_cons in Hin. destruct Hin as [->|Hin]; [done|].
           by apply Hn.
Qed.

(** Releasing a driver that holds none of the visited CPUs changes nothing. *)
Lemma unset_driver_loop_id drv cpus r :
  (∀ cpu, cpu ∈ cpus → cpuidle_drivers r !! cpu ≠ Some drv) →
  unset_driver_loop drv cpus r = r.
Proof.
  intros Hfree.
  destruct (unset_driver_loop_frame drv cpus r) as (?&?&?&?&?).
  apply registry_eq; try done.
  apply map_eq. intros cpu. rewrite unset_driver_loop_lookup.
  rewrite decide_False; [done|]. intros [Hin Hl]. by apply Hfree in Hin.
Qed.

Lemma set_driver_loop_free K drv cpus r :
  NoDup cpus →
  (∀ cpu, cpu ∈ cpus → cpuidle_drivers r !! cpu = None) →
  ∃ r', set_driver_loop K drv cpus r = Some (0%Z, r') ∧
        same_but_slots r r' ∧
        ∀ cpu, cpuidle_drivers r' !! cpu =
               if decide (cpu ∈ cpus) then Some drv
               else cpuidle_drivers r !! cpu.
Proof.
  revert r. induction cpus as [|c rest IH]; intros r Hnd Hfree;
    cbn [set_driver_loop].
  - exists r. split; [done|]. split; [apply same_but_slots_refl|].
    intros cpu. rewrite decide_False; [done|]. apply not_elem_of_nil.
  - apply NoDup_cons in Hnd as [Hc Hnd].
    unfold __cpuidle_get_cpu_driver. rewrite (Hfree c) by (by left).
    destruct (IH (set_cpuidle_drivers (<[c:=drv]> (cpuidle_drivers r)) r))
      as (r' & Hrun & Hframe & Hlook); [done| |].
    { intros cpu Hin. cbn. rewrite lookup_insert_ne by (by intros ->).
      apply Hfree. by right. }
    exists r'. split; [done|]. split.
    { eapply same_but_slots_trans; [apply same_but_slots_set|done]. }
    intros cpu. rewrite Hlook. cbn.
    destruct (decide (cpu = c)) as [->|Hne].
    + rewrite decide_False by done. rewrite lookup_insert_eq.
      rewrite decide_True; [done|by left].
    + rewrite lookup_insert_ne by done.
      destruct (decide (cpu ∈ rest)) as [Hin|Hin].
      * rewrite decide_True; [done|by right].
      * rewrite decide_False; [done|].
        intros [?|?]%elem_of_cons; done.
Qed.

(** A conflict met anywhere in the claim loop ends it with [-EBUSY], in the
    registry that releasing [drv] from the registry before the call gives:
    the CPUs claimed on the way are free again. *)
Lemma set_driver_loop_busy K drv d m r0 cpus r :
  mem r0 !! drv = Some d → cpumask d = Some m →
  same_but_slots r0 r →
  (∀ cpu, cpuidle_drivers r !! cpu = cpuidle_drivers r0 !! cpu ∨
          (cpu ∈ for_each_cpu K m ∧ cpuidle_drivers r0 !! cpu = None ∧
           cpuidle_drivers r !! cpu = Some drv)) →
  (∀ cpu, cpu ∈ cpus → cpu ∈ for_each_cpu K m) →
  (∃ cpu, cpu ∈ cpus ∧ cpuidle_drivers r !! cpu ≠ None) →
  set_driver_loop K drv cpus r =
  Some ((- EBUSY)%Z, unset_driver_loop drv (for_each_cpu K m) r0).
Proof.
  intros Hd Hm. revert r.
  induction cpus as [|c rest IH]; intros r Hframe Hinv Hsub Hbusy.
  { destruct Hbusy as (cpu & Hin & _). by apply elem_of_nil in Hin. }
  cbn [set_driver_loop]. unfold __cpuidle_get_cpu_driver.
  destruct (cpuidle_drivers r !! c) as [x|] eqn:Hc.
  - unfold __cpuidle_unset_driver.
    destruct Hframe as (Hcur & Hmem & Hoff & Hbc & Hw).
    rewrite Hmem, Hd. cbn. rewrite Hm. cbn. do 2 f_equal.
    destruct (unset_driver_loop_frame drv (for_each_cpu K m) r)
      as (?&?&?&?&?).
    destruct (unset_driver_loop_frame drv (for_each_cpu K m) r0)
      as (?&?&?&?&?).
    apply registry_eq; try congruence.
    apply map_eq. intros cpu. rewrite !unset_driver_loop_lookup.
    destruct (Hinv cpu) as [Heq|(Hin & Hfree0 & Hdrv)].
    + rewrite Heq. done.
    + rewrite Hfree0, Hdrv. rewrite decide_True by done.
      rewrite decide_False; [done|]. intros [_ ?]; done.
  - apply IH.
    + eapply same_but_slots_trans; [done|apply same_but_slots_set].
    + intros cpu. cbn. destruct (decide (cpu = c)) as [->|Hne].
      * right. rewrite lookup_insert_eq. split; [apply Hsub; by left|].
        split; [|done]. destruct (Hinv c) as [Heq|(_ & _ & H1)]; congruence.
      * rewrite lookup_insert_ne by done. apply Hinv.
    + intros cpu Hin. apply Hsub. by right.
    + destruct Hbusy as (cpu & Hin & Hne). exists cpu.
      apply elem_of_cons in Hin. destruct Hin as [->|Hin]; [congruence|].
      split; [done|]. cbn. rewrite lookup_insert_ne by congruence. done.
Qed.

Lemma set_driver_busy K drv d m r :
  mem r !! drv = Some d → cpumask d = Some m →
  (∃ cpu, cpu ∈ for_each_cpu K m ∧ cpuidle_drivers r !! cpu ≠ None) →
  __cpuidle_set_driver K drv r =
  Some ((- EBUSY)%Z, unset_driver_loop drv (for_each_cpu K m) r).
Proof.
  intros Hd Hm Hbusy. unfold __cpuidle_set_driver. rewrite Hd. cbn.
  rewrite Hm. cbn.
  eapply set_driver_loop_busy; eauto using same_but_slots_refl.
Qed.

Lemma set_driver_free K drv d m r :
  mem r !! drv = Some d → cpumask d = Some m →
  (∀ cpu, cpu ∈ for_each_cpu K m → cpuidle_drivers r !! cpu = None) →
  ∃ r', __cpuidle_set_driver K drv r = Some (0%Z, r') ∧
        same_but_slots r r' ∧
        ∀ cpu, cpuidle_drivers r' !! cpu =
               if decide (cpu ∈ for_each_cpu K m) then Some drv
               else cpuidle_drivers r !! cpu.
Proof.
  intros Hd Hm Hfree. unfold __cpuidle_set_driver. rewrite Hd. cbn.
  rewrite Hm. cbn.
  apply set_driver_loop_free; [apply NoDup_for_each_cpu|done].
Qed.

(** Either every CPU of the mask is free, or one of them is taken. *)
Lemma free_or_busy K m (r : registry) :
  (∀ cpu, cpu ∈ for_each_cpu K m → cpuidle_drivers r !! cpu = None) ∨
  (∃ cpu, cpu ∈ for_each_cpu K m ∧ cpuidle_drivers r !! cpu ≠ None).
Proof.
  destruct (decide (Forall (λ cpu, cpuidle_drivers r !! cpu = None)
                           (for_each_cpu K m))) as [Hall|Hex].
  - left. by apply Forall_forall.
  - right. apply not_Forall_Exists in Hex; [|apply _].
    apply Exists_exists in Hex. done.
Qed.

End MultipleDriversFacts.

(** ** Initialisation of a driver object *)

Section InitFacts.

Variable K : kconfig.

(** The scan from index [i] down finds a [TIMER_STOP] state exactly when
    one of the first [i + 1] states carries the flag. *)
Lemma timer_stop_scan_spec (sts : list cpuidle_state) (i : nat) :
  i < length sts →
  timer_stop_scan K sts i = Some (existsb (timer_stop K) (take (S i) sts)).
Proof.
  induction i as [|i IH]; intros Hlen.
  - destruct sts as [|s sts]; [simpl in Hlen; lia|].
    cbn. unfold timer_stop. destruct (has_flag _ _); done.
  - destruct (lookup_lt_is_Some_2 sts (S i) Hlen) as [s Hs].
    rewrite (take_S_r _ _ _ Hs), existsb_app.
    cbn [timer_stop_scan]. rewrite Hs. cbn. unfold timer_stop at 2.
    destruct (has_flag _ _); cbn.
    + by rewrite orb_true_r.
    + rewrite IH by lia. by rewrite orb_false_r.
Qed.

Lemma driver_init_eq (l : loc) (r : registry) (d : cpuidle_driver) :
  mem r !! l = Some d → wf_driver d →
  __cpuidle_driver_init K l r = Some (store l (driver_after_init K d) r).
Proof.
  intros Hd (Hsc & Hlen). unfold __cpuidle_driver_init.
  rewrite Hd. cbn.
  assert (state_count
            match cpumask d with
            | Some _ => set_refcnt 0 d
            | None => set_cpumask (Some (cpu_possible_mask K)) (set_refcnt 0 d)
            end = state_count d) as -> by (by destruct (cpumask d)).
  assert (states
            match cpumask d with
            | Some _ => set_refcnt 0 d
            | None => set_cpumask (Some (cpu_possible_mask K)) (set_refcnt 0 d)
            end = states d) as -> by (by destruct (cpumask d)).
  rewrite wrap_int_id by (unfold int_range, INT_MIN, INT_MAX in *; lia).
  unfold driver_after_init, needs_timer_stop, state_table, mask_of.
  destruct (Z.leb_spec 0 (state_count d - 1)) as [Hpos|Hneg].
  - rewrite timer_stop_scan_spec by lia. cbn.
    replace (S (Z.to_nat (state_count d - 1))) with (Z.to_nat (state_count d))
      by lia.
    destruct d as [rc bc sts sc [m|]]; cbn; destruct (existsb _ _); done.
  - cbn. replace (Z.to_nat (state_count d)) with 0 by lia.
    rewrite take_0. destruct d as [rc bc sts sc [m|]]; done.
Qed.

(** Whatever the scan finds, initialisation resets the count, fills in the
    mask and can only raise the broadcast-timer flag. *)
Lemma driver_init_inv (l : loc) (r r1 : registry) (d : cpuidle_driver) :
  mem r !! l = Some d → __cpuidle_driver_init K l r = Some r1 →
  ∃ b : bool,
    r1 = store l (init_with K b d) r ∧
    (bctimer d = true → b = true) ∧
    (wf_driver d → b = needs_timer_stop K d || bctimer d).
Proof.
  intros Hd Hrun.
  assert (∃ found : bool,
            r1 = store l (init_with K (found || bctimer d) d) r)
    as (found & ->).
  { revert Hrun. unfold __cpuidle_driver_init. rewrite Hd. cbn.
    intros Hrun. apply bind_Some in Hrun as (found & _ & Hrun).
    exists found. injection Hrun as <-. unfold init_with, mask_of.
    destruct d as [rc bc sts sc [m|]], found; done. }
  exists (found || bctimer d). split; [done|]. split.
  { intros ->. apply orb_true_r. }
  intros Hwf. rewrite (driver_init_eq l r d Hd Hwf) in Hrun.
  injection Hrun as Hrun.
  apply (f_equal (λ m : gmap loc cpuidle_driver, bctimer <$> m !! l)) in Hrun.
  cbn in Hrun. rewrite !lookup_insert_eq in Hrun. cbn in Hrun. congruence.
Qed.

Lemma wf_driver_after_init (d : cpuidle_driver) :
  wf_driver d → wf_driver (driver_after_init K d).
Proof.
  intros (Hsc & Hlen). repeat split; cbn; tauto.
Qed.

End InitFacts.

(** ** Registration *)

Section RegisterFacts.

Variable K : kconfig.

Lemma poll_idle_init_inv (l : loc) (r r' : registry) (d1 : cpuidle_driver) :
  mem r !! l = Some d1 → poll_idle_init K l r = Some r' →
  r' = store l (finalize K d1) r ∧
  (CONFIG_ARCH_HAS_CPU_RELAX K = true → states d1 ≠ []).
Proof.
  intros Hd. unfold poll_idle_init, finalize.
  destruct (CONFIG_ARCH_HAS_CPU_RELAX K).
  - rewrite Hd. cbn. destruct (states d1) as [|s rest] eqn:Hs; [done|].
    cbn. intros [= <-]. split; done.
  - intros [= <-]. split; [|done].
    unfold store. apply registry_eq; cbn; try done.
    by rewrite insert_id.
Qed.

Lemma poll_idle_init_total (l : loc) (r : registry) (d1 : cpuidle_driver) :
  mem r !! l = Some d1 → states d1 ≠ [] →
  is_Some (poll_idle_init K l r).
Proof.
  intros Hd Hne. unfold poll_idle_init.
  destruct (CONFIG_ARCH_HAS_CPU_RELAX K); [|done].
  rewrite Hd. cbn. destruct (states d1); done.
Qed.

(** Every result of [cpuidle_register_driver] is one of the four outcomes. *)
Lemma register_sound (l : loc) (d : cpuidle_driver) (r r' : registry)
    (ret : Z) :
  mem r !! l = Some d →
  cpuidle_register_driver K (Some l) r = Some (ret, r') →
  register_outcome K l d r ret r'.
Proof.
  intros Hd. unfold cpuidle_register_driver, __cpuidle_register_driver.
  rewrite Hd. cbn.
  destruct (Z.eqb_spec (state_count d) 0) as [Hsc|Hsc].
  { intros [= <- <-]. by constructor. }
  destruct (off r) eqn:Hoff.
  { intros [= <- <-]. by constructor. }
  intros Hrun. apply bind_Some in Hrun as (r1 & Hinit & Hrun).
  destruct (driver_init_inv K l r r1 d Hd Hinit) as (b & -> & Hb & Hwf).
  apply bind_Some in Hrun as ([ret2 r2] & Hset & Hrun).
  assert (mem (store l (init_with K b d) r) !! l = Some (init_with K b d))
    as Hd1 by apply lookup_insert_eq.
  unfold __cpuidle_set_driver in Hset.
  destruct (CONFIG_CPU_IDLE_MULTIPLE_DRIVERS K) eqn:HC.
  - destruct (MultipleDriversFacts.free_or_busy K (mask_of K d)
                (store l (init_with K b d) r)) as [Hfree|Hbusy].
    + destruct (MultipleDriversFacts.set_driver_free K l _ _ _ Hd1 eq_refl
                  Hfree) as (r2' & Hr2 & Hframe & Hlook).
      rewrite Hr2 in Hset. injection Hset as <- <-.
      destruct Hframe as (Hcur & Hmem & Hoff2 & Hbc & Hw).
      cbn in Hrun. rewrite Hmem, Hd1 in Hrun. cbn in Hrun.
      apply bind_Some in Hrun as (r3 & Hr3 & Hrun).
      apply bind_Some in Hrun as (r4 & Hr4 & Hrun).
      injection Hrun as <- <-.
      assert (r3 = if b then on_each_cpu_mask (mask_of K d)
                                CLOCK_EVT_NOTIFY_BROADCAST_ON r2'
                   else r2') as ->.
      { destruct b; cbn in Hr3; congruence. }
      assert (mem (if b then on_each_cpu_mask (mask_of K d)
                                 CLOCK_EVT_NOTIFY_BROADCAST_ON r2'
                   else r2') !! l = Some (init_with K b d)) as Hd3.
      { destruct b; cbn; by rewrite Hmem. }
      destruct (poll_idle_init_inv _ _ _ _ Hd3 Hr4) as (-> & Hne).
      eapply (RegOk K l d r b); try done; rewrite ?HC.
      * destruct b; cbn; rewrite Hmem; cbn; by rewrite insert_insert_eq.
      * destruct b; cbn; by rewrite Hoff2.
      * destruct b; cbn; rewrite Hbc; cbn; by rewrite ?app_nil_r.
      * destruct b; cbn; by rewrite Hw.
      * split; [exact Hfree|]. split.
        -- intros cpu. destruct b; cbn; apply Hlook.
        -- destruct b; cbn; by rewrite Hcur.
    + rewrite (MultipleDriversFacts.set_driver_busy K l _ _ _ Hd1 eq_refl
                 Hbusy) in Hset.
      injection Hset as <- <-. cbn in Hrun. injection Hrun as <- <-.
      eapply (RegBusy K l d r b); try done. rewrite HC. done.
  - unfold SingleDriver.__cpuidle_set_driver in Hset. cbn in Hset.
    destruct (cpuidle_curr_driver r) as [x|] eqn:Hcur.
    + injection Hset as <- <-. cbn in Hrun. injection Hrun as <- <-.
      eapply (RegBusy K l d r b); try done. rewrite HC, Hcur. done.
    + injection Hset as <- <-. cbn in Hrun.
      rewrite lookup_insert_eq in Hrun. cbn in Hrun.
      apply bind_Some in Hrun as (r3 & Hr3 & Hrun).
      apply bind_Some in Hrun as (r4 & Hr4 & Hrun).
      injection Hrun as <- <-.
      set (r2 := set_cpuidle_curr_driver (Some l)
                   (store l (init_with K b d) r)) in *.
      assert (r3 = if b then on_each_cpu_mask (mask_of K d)
                                CLOCK_EVT_NOTIFY_BROADCAST_ON r2
                   else r2) as ->.
      { destruct b; cbn in Hr3; congruence. }
      assert (mem (if b then on_each_cpu_mask (mask_of K d)
                                 CLOCK_EVT_NOTIFY_BROADCAST_ON r2
                   else r2) !! l = Some (init_with K b d)) as Hd3.
      { destruct b; cbn; apply lookup_insert_eq. }
      destruct (poll_idle_init_inv _ _ _ _ Hd3 Hr4) as (-> & Hne).
      eapply (RegOk K l d r b); try done; rewrite ?HC.
      * destruct b; cbn; by rewrite insert_insert_eq.
      * by destruct b.
      * destruct b; cbn; by rewrite ?app_nil_r.
      * by destruct b.
      * by destruct b.
Qed.

(** On a well-formed driver object [cpuidle_register_driver] returns. *)
Lemma register_total (l : loc) (d : cpuidle_driver) (r : registry) :
  mem r !! l = Some d → wf_driver d →
  ∃ ret r', cpuidle_register_driver K (Some l) r = Some (ret, r').
Proof.
  intros Hd Hwf. unfold cpuidle_register_driver, __cpuidle_register_driver.
  rewrite Hd. cbn.
  destruct (Z.eqb_spec (state_count d) 0) as [Hsc|Hsc]; [by eauto|].
  destruct (off r); [by eauto|].
  rewrite (driver_init_eq K l r d Hd Hwf). cbn.
  set (d1 := driver_after_init K d). set (r1 := store l d1 r).
  assert (mem r1 !! l = Some d1) as Hd1 by apply lookup_insert_eq.
  assert (states d1 ≠ []) as Hne.
  { destruct Hwf as (Hc & Hlen). cbn. intros Hnil.
    rewrite Hnil in Hlen. cbn in Hlen. lia. }
  assert (∃ ret r2, __cpuidle_set_driver K l r1 = Some (ret, r2) ∧
                    (ret = 0%Z ∨ ret = (- EBUSY)%Z) ∧ mem r2 = mem r1)
    as (ret & r2 & -> & Hret & Hmem).
  { unfold __cpuidle_set_driver.
    destruct (CONFIG_CPU_IDLE_MULTIPLE_DRIVERS K).
    - destruct (MultipleDriversFacts.free_or_busy K (mask_of K d) r1)
        as [Hfree|Hbusy].
      + destruct (MultipleDriversFacts.set_driver_free K l _ _ _ Hd1 eq_refl
                    Hfree) as (r2 & Hr2 & Hframe & _).
        exists 0%Z, r2. split; [done|]. split; [by left|]. apply Hframe.
      + rewrite (MultipleDriversFacts.set_driver_busy K l _ _ _ Hd1 eq_refl
                   Hbusy).
        eexists _, _. split; [done|]. split; [by right|].
        apply MultipleDriversFacts.unset_driver_loop_frame.
    - unfold SingleDriver.__cpuidle_set_driver.
      destruct (cpuidle_curr_driver r1); eexists _, _; eauto. }
  cbn. destruct Hret as [-> | ->]; cbn; [|by eauto].
  rewrite Hmem, Hd1. cbn.
  destruct (needs_timer_stop K d || bctimer d); cbn.
  - edestruct (poll_idle_init_total l
                 (on_each_cpu_mask (mask_of K d)
                    CLOCK_EVT_NOTIFY_BROADCAST_ON r2) d1) as [r4 Hr4];
      [by cbn; rewrite Hmem|done|].
    rewrite Hr4. cbn. eauto.
  - edestruct (poll_idle_init_total l r2 d1) as [r4 Hr4];
      [by rewrite Hmem|done|].
    rewrite Hr4. cbn. eauto.
Qed.

End RegisterFacts.

(** ** Unregistration *)

Section UnregisterFacts.

Variable K : kconfig.

(** Releasing the slots of a driver touches nothing but slots that pointed
    to it, and those it clears. *)
Lemma unset_driver_inv (l : loc) (r r' : registry) :
  __cpuidle_unset_driver K l r = Some r' →
  mem r' = mem r ∧ off r' = off r ∧
  broadcast_calls r' = broadcast_calls r ∧ warnings r' = warnings r ∧
  ∀ cpu, __cpuidle_get_cpu_driver K r' cpu = __cpuidle_get_cpu_driver K r cpu ∨
         (__cpuidle_get_cpu_driver K r cpu = Some l ∧
          __cpuidle_get_cpu_driver K r' cpu = None).
Proof.
  unfold __cpuidle_unset_driver, __cpuidle_get_cpu_driver.
  destruct (CONFIG_CPU_IDLE_MULTIPLE_DRIVERS K).
  - unfold MultipleDrivers.__cpuidle_unset_driver,
      MultipleDrivers.__cpuidle_get_cpu_driver.
    intros Hrun. apply bind_Some in Hrun as (d & Hd & Hrun).
    apply bind_Some in Hrun as (m & Hm & Hrun). injection Hrun as <-.
    destruct (MultipleDriversFacts.unset_driver_loop_frame l
                (for_each_cpu K m) r) as (_ & ? & ? & ? & ?).
    repeat (split; [done|]). intros cpu.
    rewrite MultipleDriversFacts.unset_driver_loop_lookup.
    case_decide as Hc; [right; by destruct Hc|by left].
  - unfold SingleDriver.__cpuidle_unset_driver,
      SingleDriver.__cpuidle_get_cpu_driver.
    case_decide as Hc; intros [= <-]; cbn; repeat (split; [done|]);
      intros _; [right|left]; done.
Qed.

Lemma unset_driver_spec (l : loc) (r : registry) (d : cpuidle_driver)
    (m : cpumask_t) :
  mem r !! l = Some d → cpumask d = Some m →
  ∃ r', __cpuidle_unset_driver K l r = Some r' ∧
        ∀ cpu, cpu ∈ units K m →
               __cpuidle_get_cpu_driver K r cpu = Some l →
               __cpuidle_get_cpu_driver K r' cpu = None.
Proof.
  intros Hd Hm. unfold __cpuidle_unset_driver, __cpuidle_get_cpu_driver.
  destruct (CONFIG_CPU_IDLE_MULTIPLE_DRIVERS K).
  - unfold MultipleDrivers.__cpuidle_unset_driver,
      MultipleDrivers.__cpuidle_get_cpu_driver.
    rewrite Hd. cbn. rewrite Hm. cbn. eexists. split; [done|].
    intros cpu Hin Hl.
    rewrite MultipleDriversFacts.unset_driver_loop_lookup.
    by rewrite decide_True.
  - unfold SingleDriver.__cpuidle_unset_driver,
      SingleDriver.__cpuidle_get_cpu_driver.
    case_decide as Hc; eexists; (split; [done|]); intros cpu _ Hl; [done|].
    congruence.
Qed.

(** With references outstanding, [cpuidle_unregister_driver] only warns. *)
Lemma unregister_refused (l : loc) (r : registry) (d : cpuidle_driver) :
  mem r !! l = Some d → (0 < refcnt d)%Z →
  cpuidle_unregister_driver K (Some l) r =
  Some (Registry (cpuidle_drivers r) (cpuidle_curr_driver r) (mem r) (off r)
                 (broadcast_calls r) (S (warnings r))).
Proof.
  intros Hd Hrc. unfold cpuidle_unregister_driver, __cpuidle_unregister_driver.
  cbn. rewrite Hd. cbn. unfold WARN_ON.
  destruct (Z.ltb_spec 0 (refcnt d)); [done|lia].
Qed.

(** The calls to the broadcast-timer coordinator an unregistration makes. *)
Lemma unregister_accepted (l : loc) (r : registry) (d : cpuidle_driver)
    (m : cpumask_t) :
  mem r !! l = Some d → (refcnt d ≤ 0)%Z → cpumask d = Some m →
  ∃ r', cpuidle_unregister_driver K (Some l) r = Some r' ∧
        mem r' = (if bctimer d then <[l:=set_bctimer false d]> (mem r)
                  else mem r) ∧
        off r' = off r ∧ warnings r' = warnings r ∧
        broadcast_calls r' =
          broadcast_calls r ++
          (if bctimer d then [(CLOCK_EVT_NOTIFY_BROADCAST_OFF, m)] else []) ∧
        (∀ cpu, cpu ∈ units K m →
                __cpuidle_get_cpu_driver K r cpu = Some l →
                __cpuidle_get_cpu_driver K r' cpu = None) ∧
        (∀ cpu, __cpuidle_get_cpu_driver K r' cpu =
                __cpuidle_get_cpu_driver K r cpu ∨
                (__cpuidle_get_cpu_driver K r cpu = Some l ∧
                 __cpuidle_get_cpu_driver K r' cpu = None)).
Proof.
  intros Hd Hrc Hm.
  unfold cpuidle_unregister_driver, __cpuidle_unregister_driver.
  cbn. rewrite Hd. cbn. unfold WARN_ON.
  destruct (Z.ltb_spec 0 (refcnt d)) as [|_]; [lia|].
  destruct (bctimer d) eqn:Hb; cbn.
  - rewrite Hm. cbn.
    set (r1 := on_each_cpu_mask m CLOCK_EVT_NOTIFY_BROADCAST_OFF
                 (store l (set_bctimer false d) r)).
    destruct (unset_driver_spec l r1 (set_bctimer false d) m)
      as (r' & Hr' & Hclr); [apply lookup_insert_eq|done|].
    destruct (unset_driver_inv l r1 r' Hr') as (? & ? & ? & ? & Hget).
    exists r'. split_and!; done.
  - destruct (unset_driver_spec l r d m Hd Hm) as (r' & Hr' & Hclr).
    destruct (unset_driver_inv l r r' Hr') as (? & ? & ? & Hw & Hget).
    exists r'. split_and!; try done. by rewrite app_nil_r.
Qed.

(** What [cpuidle_unregister_driver] does to the driver objects. *)
Lemma unregister_mem (l : loc) (r r' : registry) (d : cpuidle_driver) :
  mem r !! l = Some d →
  cpuidle_unregister_driver K (Some l) r = Some r' →
  mem r' = mem r ∨ mem r' = <[l:=set_bctimer false d]> (mem r).
Proof.
  intros Hd. unfold cpuidle_unregister_driver, __cpuidle_unregister_driver.
  cbn. rewrite Hd. cbn. unfold WARN_ON.
  destruct (0 <? refcnt d)%Z.
  { intros [= <-]. by left. }
  intros Hrun. apply bind_Some in Hrun as (r1 & Hr1 & Hrun).
  apply unset_driver_inv in Hrun as (Hmem & _). rewrite Hmem.
  destruct (bctimer d).
  - apply bind_Some in Hr1 as (m & _ & [= <-]). by right.
  - injection Hr1 as <-. by left.
Qed.

End UnregisterFacts.

(** ** References, and what one operation does to a driver object *)

Section StepFacts.

Variable K : kconfig.

Lemma driver_ref_none (cpu : nat) (r : registry) :
  __cpuidle_get_cpu_driver K r cpu = None →
  cpuidle_driver_ref K cpu r = Some (None, r).
Proof. unfold cpuidle_driver_ref, cpuidle_get_driver. by intros ->. Qed.

Lemma driver_ref_some (cpu : nat) (r : registry) (l : loc)
    (d : cpuidle_driver) :
  __cpuidle_get_cpu_driver K r cpu = Some l → mem r !! l = Some d →
  cpuidle_driver_ref K cpu r =
  Some (Some l, store l (set_refcnt (wrap_int (refcnt d + 1)) d) r).
Proof.
  unfold cpuidle_driver_ref, cpuidle_get_driver. intros -> ->. done.
Qed.

Lemma driver_unref_none (cpu : nat) (r : registry) :
  __cpuidle_get_cpu_driver K r cpu = None →
  cpuidle_driver_unref K cpu r = Some r.
Proof. unfold cpuidle_driver_unref, cpuidle_get_driver. by intros ->. Qed.

Lemma driver_unref_positive (cpu : nat) (r : registry) (l : loc)
    (d : cpuidle_driver) :
  __cpuidle_get_cpu_driver K r cpu = Some l → mem r !! l = Some d →
  (0 < refcnt d)%Z →
  cpuidle_driver_unref K cpu r =
  Some (store l (set_refcnt (wrap_int (refcnt d - 1)) d) r).
Proof.
  unfold cpuidle_driver_unref, cpuidle_get_driver. intros -> -> Hrc. cbn.
  unfold WARN_ON. destruct (Z.leb_spec (refcnt d) 0); [lia|done].
Qed.

Lemma driver_unref_floor (cpu : nat) (r : registry) (l : loc)
    (d : cpuidle_driver) :
  __cpuidle_get_cpu_driver K r cpu = Some l → mem r !! l = Some d →
  (refcnt d ≤ 0)%Z →
  cpuidle_driver_unref K cpu r =
  Some (Registry (cpuidle_drivers r) (cpuidle_curr_driver r) (mem r) (off r)
                 (broadcast_calls r) (S (warnings r))).
Proof.
  unfold cpuidle_driver_unref, cpuidle_get_driver. intros -> -> Hrc. cbn.
  unfold WARN_ON. destruct (Z.leb_spec (refcnt d) 0); [done|lia].
Qed.

Lemma register_live (l : loc) (r : registry) (res : Z * registry) :
  cpuidle_register_driver K (Some l) r = Some res → is_Some (mem r !! l).
Proof.
  unfold cpuidle_register_driver, __cpuidle_register_driver.
  intros Hrun. apply bind_Some in Hrun as (d & Hd & _). eauto.
Qed.

(** Registration writes one driver object at most, and resets its count. *)
Lemma register_outcome_mem (l : loc) (d : cpuidle_driver) (r r' : registry)
    (ret : Z) :
  register_outcome K l d r ret r' →
  mem r' = mem r ∨
  ∃ d', mem r' = <[l:=d']> (mem r) ∧ refcnt d' = 0%Z.
Proof.
  intros [ | |b r1 _ _ _ _ Hcase|b r1 _ _ _ _ _ Hmem _ _ _ _];
    [by left|by left| |].
  - right. exists (init_with K b d). split; [|done].
    destruct (CONFIG_CPU_IDLE_MULTIPLE_DRIVERS K).
    + destruct Hcase as (_ & ->).
      by destruct (MultipleDriversFacts.unset_driver_loop_frame l
                     (units K (mask_of K d)) (store l (init_with K b d) r))
        as (_ & -> & _).
    + by destruct Hcase as (_ & ->).
  - right. exists (finalize K (init_with K b d)). split; [done|].
    unfold finalize. by destruct (CONFIG_ARCH_HAS_CPU_RELAX K).
Qed.

(** One operation on the registry, seen from the driver object at [l]:
    its count stays, is reset, goes up by one or, when positive, down by
    one; and unless the operation registers or unregisters this very
    driver, its other fields stay as they are. *)
Lemma step_frame (o : op) (r r' : registry) (l : loc) (d : cpuidle_driver) :
  step K o r = Some r' → mem r !! l = Some d →
  ∃ d', mem r' !! l = Some d' ∧
        (refcnt d' = refcnt d ∨ refcnt d' = 0%Z ∨
         refcnt d' = wrap_int (refcnt d + 1) ∨
         ((0 < refcnt d)%Z ∧ refcnt d' = wrap_int (refcnt d - 1))) ∧
        (o ≠ Register (Some l) → o ≠ Unregister (Some l) →
         bctimer d' = bctimer d ∧ cpumask d' = cpumask d ∧
         states d' = states d ∧ state_count d' = state_count d).
Proof.
  intros Hstep Hd. destruct o as [[l0|]|[l0|]|cpu|cpu]; cbn in Hstep.
  - apply fmap_Some in Hstep as ([ret r1] & Hrun & ->). cbn.
    destruct (register_live _ _ _ Hrun) as [d0 Hd0].
    apply (register_sound K l0 d0) in Hrun; [|done].
    apply register_outcome_mem in Hrun as [->|(d0' & -> & Hrc)].
    { exists d. split; [done|]. split; [by left|done]. }
    destruct (decide (l0 = l)) as [->|Hne].
    + exists d0'. rewrite lookup_insert_eq. split; [done|].
      split; [right; by left|]. intros Ho. by destruct Ho.
    + exists d. rewrite lookup_insert_ne by done. split; [done|].
      split; [by left|done].
  - injection Hstep as <-. exists d. split; [done|]. split; [by left|done].
  - assert (is_Some (mem r !! l0)) as [d0 Hd0].
    { revert Hstep.
      unfold cpuidle_unregister_driver, __cpuidle_unregister_driver. cbn.
      intros Hrun. apply bind_Some in Hrun as (d0 & Hd0 & _). eauto. }
    apply (unregister_mem K l0 r r' d0 Hd0) in Hstep as [->| ->].
    { exists d. split; [done|]. split; [by left|done]. }
    destruct (decide (l0 = l)) as [->|Hne].
    + rewrite lookup_insert_eq. eexists. split; [done|].
      assert (d0 = d) as -> by congruence.
      split; [by left|]. intros _ Ho. by destruct Ho.
    + exists d. rewrite lookup_insert_ne by done. split; [done|].
      split; [by left|done].
  - discriminate Hstep.
  - apply fmap_Some in Hstep as ([p r1] & Hrun & ->). cbn.
    unfold cpuidle_driver_ref, cpuidle_get_driver in Hrun.
    destruct (__cpuidle_get_cpu_driver K r cpu) as [l0|].
    + apply bind_Some in Hrun as (d0 & Hd0 & [= <- <-]). cbn.
      destruct (decide (l0 = l)) as [->|Hne].
      * rewrite lookup_insert_eq. eexists. split; [done|].
        assert (d0 = d) as -> by congruence.
        split; [right; right; by left|done].
      * exists d. rewrite lookup_insert_ne by done. split; [done|].
        split; [by left|done].
    + injection Hrun as <- <-. exists d. split; [done|].
      split; [by left|done].
  - unfold cpuidle_driver_unref, cpuidle_get_driver in Hstep.
    destruct (__cpuidle_get_cpu_driver K r cpu) as [l0|].
    + apply bind_Some in Hstep as (d0 & Hd0 & Hstep).
      unfold WARN_ON in Hstep.
      destruct (Z.leb_spec (refcnt d0) 0) as [Hle|Hgt]; cbn in Hstep;
        injection Hstep as <-.
      { exists d. split; [done|]. split; [by left|done]. }
      cbn. destruct (decide (l0 = l)) as [->|Hne].
      * rewrite lookup_insert_eq. eexists. split; [done|].
        assert (d0 = d) as -> by congruence.
        split; [right; right; right; by split|done].
      * exists d. rewrite lookup_insert_ne by done. split; [done|].
        split; [by left|done].
    + injection Hstep as <-. exists d. split; [done|].
      split; [by left|done].
Qed.

End StepFacts.

(** ** Reading an outcome off the returned value *)

Section OutcomeFacts.

Variable K : kconfig.

Lemma register_outcome_ok (l : loc) (d : cpuidle_driver) (r r' : registry) :
  register_outcome K l d r 0%Z r' →
  ∃ b : bool,
    state_count d ≠ 0%Z ∧ off r = false ∧
    (bctimer d = true → b = true) ∧
    (wf_driver d → b = needs_timer_stop K d || bctimer d) ∧
    (CONFIG_ARCH_HAS_CPU_RELAX K = true → states d ≠ []) ∧
    mem r' = <[l:=finalize K (init_with K b d)]> (mem r) ∧
    off r' = off r ∧
    broadcast_calls r' = broadcast_calls r ++ enable_calls K b d ∧
    warnings r' = warnings r ∧
    (∀ cpu, cpu ∈ units K (mask_of K d) → associated K r' cpu l) ∧
    (∀ cpu, cpu ∉ units K (mask_of K d) →
            CONFIG_CPU_IDLE_MULTIPLE_DRIVERS K = true →
            __cpuidle_get_cpu_driver K r' cpu =
            __cpuidle_get_cpu_driver K r cpu).
Proof.
  intros Hout. inversion Hout as [ | | |b r1 Hsc Hoff Hb Hwf Hne Hmem Hoff'
                                    Hbc Hw Hcase]; subst.
  exists b. split_and!; try done.
  - intros cpu Hin. unfold associated, __cpuidle_get_cpu_driver.
    destruct (CONFIG_CPU_IDLE_MULTIPLE_DRIVERS K).
    + destruct Hcase as (_ & Hlook & _).
      unfold MultipleDrivers.__cpuidle_get_cpu_driver.
      rewrite Hlook. by rewrite decide_True.
    + by destruct Hcase as (_ & ? & _).
  - intros cpu Hout' HC. rewrite HC in Hcase.
    destruct Hcase as (_ & Hlook & _).
    unfold __cpuidle_get_cpu_driver,
      MultipleDrivers.__cpuidle_get_cpu_driver.
    rewrite HC, Hlook. by rewrite decide_False.
Qed.

Lemma register_outcome_error (l : loc) (d : cpuidle_driver)
    (r r' : registry) (ret : Z) :
  register_outcome K l d r ret r' →
  ret = (- EINVAL)%Z ∨ ret = (- ENODEV)%Z → r' = r.
Proof.
  intros Hout Hret. destruct Hout; try done.
  all: destruct Hret as [Hret|Hret]; discriminate Hret.
Qed.

Lemma register_outcome_codes (l : loc) (d : cpuidle_driver)
    (r r' : registry) (ret : Z) :
  register_outcome K l d r ret r' →
  ret = 0%Z ∨ ret = (- EINVAL)%Z ∨ ret = (- ENODEV)%Z ∨ ret = (- EBUSY)%Z.
Proof. intros []; auto. Qed.

End OutcomeFacts.

(** ** Runs *)

Section RunFacts.

Variable K : kconfig.

(** Over a run the count of a driver object stays between 0 and the largest
    number of references the run can have taken. *)
Lemma refcnt_bounded_run (os : list op) (l : loc) :
  ∀ (r1 r2 : registry) (d1 : cpuidle_driver) (n : Z),
    mem r1 !! l = Some d1 → (0 ≤ refcnt d1 ≤ n)%Z →
    (n + Z.of_nat (length os) ≤ INT_MAX)%Z →
    run K os r1 = Some r2 →
    ∃ d2, mem r2 !! l = Some d2 ∧
          (0 ≤ refcnt d2 ≤ n + Z.of_nat (length os))%Z.
Proof.
  induction os as [|o os IH]; intros r1 r2 d1 n Hd Hrc Hlen Hrun.
  - injection Hrun as <-. exists d1. split; [done|]. cbn. lia.
  - cbn [run] in Hrun. apply bind_Some in Hrun as (r & Hstep & Hrun).
    destruct (step_frame K o r1 r l d1 Hstep Hd) as (d & Hd' & Hcases & _).
    cbn [length] in Hlen.
    destruct (IH r r2 d (n + 1)%Z Hd') as (d2 & Hd2 & Hrc2); [|lia|done|].
    + unfold INT_MAX in Hlen.
      destruct Hcases as [->|[->|[->|[Hpos ->]]]]; try lia.
      * rewrite wrap_int_id; [lia|].
        unfold int_range, INT_MIN, INT_MAX; lia.
      * rewrite wrap_int_id; [lia|].
        unfold int_range, INT_MIN, INT_MAX; lia.
    + exists d2. split; [done|]. cbn [length]. lia.
Qed.

(** Over a run that neither registers nor unregisters the driver at [l],
    the object of that driver keeps everything but its count. *)
Lemma run_frame (os : list op) (l : loc) :
  ∀ (r1 r2 : registry) (d1 : cpuidle_driver),
    mem r1 !! l = Some d1 → Forall (leaves_registration l) os →
    run K os r1 = Some r2 →
    ∃ d2, mem r2 !! l = Some d2 ∧ bctimer d2 = bctimer d1 ∧
          cpumask d2 = cpumask d1 ∧ states d2 = states d1 ∧
          state_count d2 = state_count d1.
Proof.
  induction os as [|o os IH]; intros r1 r2 d1 Hd Hos Hrun.
  - injection Hrun as <-. by exists d1.
  - apply Forall_cons in Hos as [[Ho1 Ho2] Hos].
    cbn [run] in Hrun. apply bind_Some in Hrun as (r & Hstep & Hrun).
    destruct (step_frame K o r1 r l d1 Hstep Hd) as (d & Hd' & _ & Hsame).
    destruct (Hsame Ho1 Ho2) as (Hb & Hm & Hs & Hc).
    destruct (IH r r2 d Hd' Hos Hrun) as (d2 & Hd2 & ? & ? & ? & ?).
    exists d2. split_and!; congruence.
Qed.

End RunFacts.

(** ** A registration that meets a conflict *)

Section BusyFacts.

Variable K : kconfig.

Lemma register_outcome_busy (l : loc) (d : cpuidle_driver) (r r' : registry) :
  register_outcome K l d r (- EBUSY)%Z r' →
  ∃ b : bool,
    (bctimer d = true → b = true) ∧
    (wf_driver d → b = needs_timer_stop K d || bctimer d) ∧
    mem r' = <[l:=init_with K b d]> (mem r) ∧
    off r' = off r ∧ broadcast_calls r' = broadcast_calls r ∧
    warnings r' = warnings r ∧
    (∃ cpu, __cpuidle_get_cpu_driver K r cpu ≠ None) ∧
    ∀ cpu, __cpuidle_get_cpu_driver K r' cpu =
           if CONFIG_CPU_IDLE_MULTIPLE_DRIVERS K
           then if decide (cpu ∈ units K (mask_of K d) ∧
                           __cpuidle_get_cpu_driver K r cpu = Some l)
                then None else __cpuidle_get_cpu_driver K r cpu
           else __cpuidle_get_cpu_driver K r cpu.
Proof.
  intros Hout. inversion Hout as [ | |b r1 Hsc Hoff Hb Hwf Hcase| ]; subst.
  exists b. unfold __cpuidle_get_cpu_driver.
  destruct (CONFIG_CPU_IDLE_MULTIPLE_DRIVERS K).
  - destruct Hcase as ((cpu0 & Hin0 & Hbusy) & ->).
    destruct (MultipleDriversFacts.unset_driver_loop_frame l
                (units K (mask_of K d)) (store l (init_with K b d) r))
      as (? & ? & ? & ? & ?).
    split_and!; try done; [by exists cpu0|].
    intros cpu. unfold MultipleDrivers.__cpuidle_get_cpu_driver.
    by rewrite MultipleDriversFacts.unset_driver_loop_lookup.
  - destruct Hcase as (Hbusy & ->). split_and!; try done. by exists 0.
Qed.

(** A taken unit in the mask of a valid driver makes its registration end
    with [-EBUSY]. *)
Lemma register_busy_returns (l : loc) (d : cpuidle_driver) (r : registry)
    (cpu0 : nat) :
  mem r !! l = Some d → wf_driver d → state_count d ≠ 0%Z → off r = false →
  cpu0 ∈ units K (mask_of K d) →
  __cpuidle_get_cpu_driver K r cpu0 ≠ None →
  ∃ r', cpuidle_register_driver K (Some l) r = Some ((- EBUSY)%Z, r').
Proof.
  intros Hd Hwf Hsc Hoff Hin Hbusy.
  destruct (register_total K l d r Hd Hwf) as (ret & r' & Hrun).
  exists r'. rewrite Hrun. do 2 f_equal.
  apply (register_sound K l d) in Hrun; [|done].
  inversion Hrun as [ | | |b r1 _ _ _ _ _ _ _ _ _ Hcase]; subst;
    try done; try congruence.
  exfalso. revert Hbusy Hcase. unfold __cpuidle_get_cpu_driver.
  destruct (CONFIG_CPU_IDLE_MULTIPLE_DRIVERS K).
  - intros Hbusy (Hfree & _). by apply Hbusy, Hfree.
  - intros Hbusy (Hfree & _). done.
Qed.

(** A valid driver whose mask is free is registered with success. *)
Lemma register_free_succeeds (l : loc) (d : cpuidle_driver) (r : registry) :
  mem r !! l = Some d → wf_driver d → state_count d ≠ 0%Z → off r = false →
  mask_free K r (mask_of K d) →
  ∃ r', cpuidle_register_driver K (Some l) r = Some (0%Z, r').
Proof.
  intros Hd Hwf Hsc Hoff Hfree.
  destruct (register_total K l d r Hd Hwf) as (ret & r' & Hrun).
  exists r'. rewrite Hrun. do 2 f_equal.
  apply (register_sound K l d) in Hrun; [|done].
  inversion Hrun as [ | |b r1 _ _ _ _ Hcase| ]; subst;
    try done; try congruence.
  exfalso. revert Hfree Hcase. unfold mask_free.
  destruct (CONFIG_CPU_IDLE_MULTIPLE_DRIVERS K).
  - intros Hfree ((cpu & Hin & Hbusy) & _). by apply Hbusy, Hfree.
  - intros Hfree (Hbusy & _). done.
Qed.

End BusyFacts.

(** ** The scenario of the specification, run in both configurations *)

(** Register A (CPUs 0 and 1); acquire on CPU 0; B (CPUs 1 and 2) is
    refused; so is the unregistration of A, until the reference is
    released; then B can be registered. *)
Example scenario_percpu :
  cpuidle_register_driver K_percpu ptr_A boot = Some (0%Z, reg_A) ∧
  refcnt <$> mem reg_A !! addr_A = Some 0%Z ∧
  cpuidle_driver_ref K_percpu 0 reg_A = Some (ptr_A, reg_A_held) ∧
  refcnt <$> mem reg_A_held !! addr_A = Some 1%Z ∧
  cpuidle_register_driver K_percpu ptr_B reg_A_held
    = Some ((- EBUSY)%Z, reg_A_held) ∧
  __cpuidle_get_cpu_driver K_percpu reg_A_held 1 = ptr_A ∧
  __cpuidle_get_cpu_driver K_percpu reg_A_held 2 = None ∧
  warnings <$> cpuidle_unregister_driver K_percpu ptr_A reg_A_held
    = Some 1 ∧
  (λ r, (__cpuidle_get_cpu_driver K_percpu r 0,
         __cpuidle_get_cpu_driver K_percpu r 1,
         refcnt <$> mem r !! addr_A)) <$>
    run K_percpu [Unregister ptr_A; Release 0; Unregister ptr_A] reg_A_held
    = Some (None, None, Some 0%Z) ∧
  (r ← run K_percpu [Unregister ptr_A; Release 0; Unregister ptr_A]
         reg_A_held;
   fst <$> cpuidle_register_driver K_percpu ptr_B r) = Some 0%Z.
Proof. split_and!; vm_compute; reflexivity. Qed.

(** The same run with the single global slot. *)
Example scenario_global :
  fst <$> cpuidle_register_driver K_global ptr_A boot = Some 0%Z ∧
  (r ← run K_global [Register ptr_A; Acquire 0] boot;
   Some (cpuidle_curr_driver r, refcnt <$> mem r !! addr_A))
    = Some (ptr_A, Some 1%Z) ∧
  (r ← run K_global [Register ptr_A; Acquire 0] boot;
   fst <$> cpuidle_register_driver K_global ptr_B r) = Some (- EBUSY)%Z ∧
  (r ← run K_global [Register ptr_A; Acquire 0; Unregister ptr_A] boot;
   Some (cpuidle_curr_driver r, warnings r)) = Some (ptr_A, 1) ∧
  (r ← run K_global [Register ptr_A; Acquire 0; Unregister ptr_A;
                     Release 0; Unregister ptr_A] boot;
   Some (cpuidle_curr_driver r, warnings r)) = Some (None, 1) ∧
  (r ← run K_global [Register ptr_A; Acquire 0; Unregister ptr_A;
                     Release 0; Unregister ptr_A] boot;
   fst <$> cpuidle_register_driver K_global ptr_B r) = Some 0%Z.
Proof. split_and!; vm_compute; reflexivity. Qed.

(** At [INT_MAX] the increment of the count wraps around. *)
Example refcnt_wraps : wrap_int (INT_MAX + 1) = INT_MIN.
Proof. reflexivity. Qed.

(** * The claims of the specification *)

(** C2. When [register(D)] succeeds, every unit of D's mask is associated
    with D, D's reference count is 0, and a mask that was NULL at the call
    has become the mask of all possible units.  (A registration that
    succeeds was given a non-zero state count: the theorem needs no
    hypothesis on the state table.) *)
Theorem C2_register_success (K : kconfig) (l : loc) (d : cpuidle_driver)
    (r r' : registry) :
  mem r !! l = Some d →
  cpuidle_register_driver K (Some l) r = Some (0%Z, r') →
  ∃ d', mem r' !! l = Some d' ∧
        refcnt d' = 0%Z ∧
        cpumask d' = Some (mask_of K d) ∧
        (cpumask d = None → cpumask d' = Some (cpu_possible_mask K)) ∧
        (∀ cpu, cpu ∈ units K (mask_of K d) → associated K r' cpu l) ∧
        state_count d ≠ 0%Z.
Proof.
  intros Hd Hrun. apply (register_sound K l d) in Hrun; [|done].
  apply register_outcome_ok in Hrun
    as (b & Hsc & _ & _ & _ & _ & Hmem & _ & _ & _ & Hassoc & _).
  exists (finalize K (init_with K b d)).
  rewrite Hmem, lookup_insert_eq. split; [done|].
  unfold finalize. destruct (CONFIG_ARCH_HAS_CPU_RELAX K); cbn.
  all: split_and!; try done.
  all: intros Hnull; unfold mask_of; by rewrite Hnull.
Qed.

Lemma C2_register_success_witness :
  mem boot !! addr_A = Some drv_A ∧
  cpuidle_register_driver K_percpu (Some addr_A) boot =
    Some (0%Z, reg_A) ∧
  ∃ d', mem reg_A !! addr_A
          = Some d' ∧
        refcnt d' = 0%Z ∧
        cpumask d' = Some (mask_of K_percpu drv_A) ∧
        (cpumask drv_A = None →
         cpumask d' = Some (cpu_possible_mask K_percpu)) ∧
        (∀ cpu, cpu ∈ units K_percpu (mask_of K_percpu drv_A) →
                associated K_percpu
                  reg_A cpu addr_A) ∧
        state_count drv_A ≠ 0%Z.
Proof.
  split; [reflexivity|]. split; [vm_compute; reflexivity|].
  apply (C2_register_success K_percpu addr_A drv_A boot);
    [reflexivity|vm_compute; reflexivity].
Defined.

(** C9. With [CONFIG_ARCH_HAS_CPU_RELAX], after a successful [register(D)]
    the entry at index 0 of D's states is the polling state, whatever the
    driver had put there: exit latency 0, target residency 0, power usage
    -1 (every bit set, the largest value the field can hold when read as
    unsigned), flags exactly [TIME_VALID], not disabled, [poll_idle] as the
    enter callback.  The entries after index 0 are the driver's own. *)
Theorem C9_polling_state_at_index_0 (K : kconfig) (l : loc)
    (d : cpuidle_driver) (r r' : registry) :
  CONFIG_ARCH_HAS_CPU_RELAX K = true →
  mem r !! l = Some d →
  cpuidle_register_driver K (Some l) r = Some (0%Z, r') →
  ∃ d' s s0,
    mem r' !! l = Some d' ∧ states d !! 0 = Some s0 ∧
    states d' !! 0 = Some s ∧ s = poll_state K s0 ∧
    exit_latency s = 0%Z ∧ target_residency s = 0%Z ∧
    power_usage s = (-1)%Z ∧ (power_usage s mod 2 ^ 32 = 2 ^ 32 - 1)%Z ∧
    flags s = CPUIDLE_FLAG_TIME_VALID K ∧
    disabled s = false ∧ enter s = Some poll_idle ∧
    drop 1 (states d') = drop 1 (states d).
Proof.
  intros Hrelax Hd Hrun. apply (register_sound K l d) in Hrun; [|done].
  apply register_outcome_ok in Hrun
    as (b & _ & _ & _ & _ & Hne & Hmem & _).
  specialize (Hne Hrelax).
  destruct (states d) as [|s0 rest] eqn:Hs; [done|].
  exists (finalize K (init_with K b d)), (poll_state K s0), s0.
  rewrite Hmem, lookup_insert_eq. unfold finalize. rewrite Hrelax. cbn.
  rewrite Hs. cbn. split_and!; done.
Qed.

Lemma C9_polling_state_at_index_0_witness :
  ∃ d' s s0,
    mem reg_A !! addr_A = Some d' ∧
    states drv_A !! 0 = Some s0 ∧
    states d' !! 0 = Some s ∧ s = poll_state K_percpu s0 ∧
    exit_latency s = 0%Z ∧ target_residency s = 0%Z ∧
    power_usage s = (-1)%Z ∧ (power_usage s mod 2 ^ 32 = 2 ^ 32 - 1)%Z ∧
    flags s = CPUIDLE_FLAG_TIME_VALID K_percpu ∧
    disabled s = false ∧ enter s = Some poll_idle ∧
    drop 1 (states d') = drop 1 (states drv_A).
Proof.
  apply (C9_polling_state_at_index_0 K_percpu addr_A drv_A boot);
    [reflexivity|reflexivity|vm_compute; reflexivity].
Defined.

(** C3. For a registered driver D: while its reference count is positive,
    [unregister(D)] is reported ([WARN_ON]) and does nothing else — every
    association, the driver objects and the broadcast-timer calls are as
    before; with the count at 0 it goes through without a report and every
    unit of D's mask ends unassociated.  In particular, with one reference
    outstanding: refused, then after the release, accepted. *)
Theorem C3_unregister_refcount_gate (K : kconfig) (l : loc)
    (d : cpuidle_driver) (m : cpumask_t) (r : registry) :
  registered K r l d m →
  ((0 < refcnt d)%Z →
   ∃ r', cpuidle_unregister_driver K (Some l) r = Some r' ∧
         warnings r' = S (warnings r) ∧
         (∀ cpu, __cpuidle_get_cpu_driver K r' cpu =
                 __cpuidle_get_cpu_driver K r cpu) ∧
         broadcast_calls r' = broadcast_calls r ∧ mem r' = mem r) ∧
  (refcnt d = 0%Z →
   ∃ r', cpuidle_unregister_driver K (Some l) r = Some r' ∧
         warnings r' = warnings r ∧
         ∀ cpu, cpu ∈ units K m → __cpuidle_get_cpu_driver K r' cpu = None) ∧
  (refcnt d = 1%Z →
   ∀ cpu0, cpu0 ∈ units K m →
   ∃ r', run K [Unregister (Some l); Release cpu0; Unregister (Some l)] r
           = Some r' ∧
         warnings r' = S (warnings r) ∧
         ∀ cpu, cpu ∈ units K m → __cpuidle_get_cpu_driver K r' cpu = None).
Proof.
  intros (Hd & Hm & Hassoc). split_and!.
  - intros Hrc. rewrite (unregister_refused K l r d Hd Hrc).
    eexists. split; [done|]. by split_and!.
  - intros Hrc.
    destruct (unregister_accepted K l r d m Hd ltac:(lia) Hm)
      as (r' & Hrun & _ & _ & Hw & _ & Hclr & _).
    exists r'. split_and!; try done.
    intros cpu Hin. apply Hclr; [done|]. by apply Hassoc.
  - intros Hrc cpu0 Hin0. cbn [run step].
    rewrite (unregister_refused K l r d Hd ltac:(lia)). cbn [mbind option_bind].
    set (r1 := Registry _ _ _ _ _ _).
    assert (__cpuidle_get_cpu_driver K r1 cpu0 = Some l) as Hget
      by (by apply Hassoc).
    rewrite (driver_unref_positive K cpu0 r1 l d Hget Hd ltac:(lia)).
    cbn [mbind option_bind]. rewrite Hrc. change (wrap_int (1 - 1)) with 0%Z.
    set (r2 := store l (set_refcnt 0 d) r1).
    destruct (unregister_accepted K l r2 (set_refcnt 0 d) m)
      as (r' & Hrun & _ & _ & Hw & _ & Hclr & _);
      [apply lookup_insert_eq|done|done|].
    rewrite Hrun. exists r'. split_and!; try done.
    intros cpu Hin. apply Hclr; [done|]. by apply Hassoc.
Qed.

Lemma C3_unregister_refcount_gate_witness :
  registered K_percpu reg_A_held addr_A (set_refcnt 1 drv_A_registered) 3 ∧
  (∃ r', cpuidle_unregister_driver K_percpu (Some addr_A) reg_A_held
           = Some r' ∧
         warnings r' = S (warnings reg_A_held) ∧
         (∀ cpu, __cpuidle_get_cpu_driver K_percpu r' cpu =
                 __cpuidle_get_cpu_driver K_percpu reg_A_held cpu) ∧
         broadcast_calls r' = broadcast_calls reg_A_held ∧
         mem r' = mem reg_A_held) ∧
  (∃ r', run K_percpu
           [Unregister (Some addr_A); Release 0; Unregister (Some addr_A)]
           reg_A_held = Some r' ∧
         warnings r' = S (warnings reg_A_held) ∧
         ∀ cpu, cpu ∈ units K_percpu 3 →
                __cpuidle_get_cpu_driver K_percpu r' cpu = None).
Proof.
  assert (registered K_percpu reg_A_held addr_A
            (set_refcnt 1 drv_A_registered) 3) as Hreg.
  { split; [vm_compute; reflexivity|]. split; [reflexivity|].
    intros cpu Hin. change (units K_percpu 3) with [0; 1] in Hin.
    apply elem_of_cons in Hin as [->|Hin]; [vm_compute; reflexivity|].
    apply elem_of_cons in Hin as [->|Hin]; [vm_compute; reflexivity|].
    by apply elem_of_nil in Hin. }
  split; [exact Hreg|].
  destruct (C3_unregister_refcount_gate K_percpu addr_A
              (set_refcnt 1 drv_A_registered) 3 reg_A_held Hreg)
    as (Hrefused & _ & Hscenario).
  split.
  - apply Hrefused. vm_compute; reflexivity.
  - apply (Hscenario eq_refl 0).
    change (units K_percpu 3) with [0; 1]. by left.
Defined.

(** C8, as amended.  From a successful registration on, over any run of
    registry operations (no longer than [INT_MAX], the range of the C [int]
    that holds the count), the reference count of the driver is at least 0.
    A release decrements a positive count by one; on a count that is 0 or
    less it is reported and leaves the count as it is; with no driver
    associated with the unit it does nothing, and reports nothing. *)
Theorem C8_refcount_floor (K : kconfig) :
  (∀ l r0 r1 os r2,
     cpuidle_register_driver K (Some l) r0 = Some (0%Z, r1) →
     run K os r1 = Some r2 → (Z.of_nat (length os) ≤ INT_MAX)%Z →
     ∃ d2, mem r2 !! l = Some d2 ∧
           (0 ≤ refcnt d2 ≤ Z.of_nat (length os))%Z) ∧
  (∀ cpu r l d,
     __cpuidle_get_cpu_driver K r cpu = Some l → mem r !! l = Some d →
     (0 < refcnt d ≤ INT_MAX)%Z →
     ∃ r', cpuidle_driver_unref K cpu r = Some r' ∧
           mem r' = <[l:=set_refcnt (refcnt d - 1) d]> (mem r) ∧
           same_but_mem r r') ∧
  (∀ cpu r l d,
     __cpuidle_get_cpu_driver K r cpu = Some l → mem r !! l = Some d →
     (refcnt d ≤ 0)%Z →
     ∃ r', cpuidle_driver_unref K cpu r = Some r' ∧
           warnings r' = S (warnings r) ∧ mem r' = mem r) ∧
  (∀ cpu r,
     __cpuidle_get_cpu_driver K r cpu = None →
     cpuidle_driver_unref K cpu r = Some r).
Proof.
  split_and!.
  - intros l r0 r1 os r2 Hreg Hrun Hlen.
    destruct (register_live K l r0 _ Hreg) as [d Hd].
    apply (register_sound K l d) in Hreg; [|done].
    apply register_outcome_ok in Hreg
      as (b & _ & _ & _ & _ & _ & Hmem & _).
    destruct (refcnt_bounded_run K os l r1 r2
                (finalize K (init_with K b d)) 0) as (d2 & Hd2 & Hrc);
      try done.
    + rewrite Hmem. apply lookup_insert_eq.
    + unfold finalize. destruct (CONFIG_ARCH_HAS_CPU_RELAX K); cbn; lia.
    + exists d2. split; [done|]. lia.
  - intros cpu r l d Hget Hd Hrc.
    rewrite (driver_unref_positive K cpu r l d Hget Hd ltac:(lia)).
    rewrite wrap_int_id by (unfold int_range, INT_MIN, INT_MAX in *; lia).
    eexists. split; [done|]. split; [done|]. by repeat split.
  - intros cpu r l d Hget Hd Hrc.
    rewrite (driver_unref_floor K cpu r l d Hget Hd Hrc).
    eexists. by split_and!.
  - apply driver_unref_none.
Qed.

Lemma C8_refcount_floor_witness :
  (∃ d2, mem (after K_percpu
                [Register (Some addr_A); Acquire 0; Release 1; Release 0]
                boot) !! addr_A = Some d2 ∧
         (0 ≤ refcnt d2 ≤ Z.of_nat 3)%Z) ∧
  (∃ r', cpuidle_driver_unref K_percpu 1 reg_A_held = Some r' ∧
         mem r' = <[addr_A:=set_refcnt (1 - 1)
                              (set_refcnt 1 drv_A_registered)]>
                    (mem reg_A_held) ∧
         same_but_mem reg_A_held r') ∧
  (∃ r', cpuidle_driver_unref K_percpu 0 reg_A = Some r' ∧
         warnings r' = S (warnings reg_A) ∧ mem r' = mem reg_A) ∧
  cpuidle_driver_unref K_percpu 2 reg_A = Some reg_A.
Proof.
  destruct (C8_refcount_floor K_percpu) as (Hinv & Hdec & Hfloor & Hnone).
  split_and!.
  - apply (Hinv addr_A boot reg_A [Acquire 0; Release 1; Release 0]).
    + vm_compute; reflexivity.
    + vm_compute; reflexivity.
    + vm_compute; discriminate.
  - apply (Hdec 1 reg_A_held addr_A (set_refcnt 1 drv_A_registered)).
    + vm_compute; reflexivity.
    + vm_compute; reflexivity.
    + vm_compute. split; [reflexivity|discriminate].
  - apply (Hfloor 0 reg_A addr_A drv_A_registered).
    + vm_compute; reflexivity.
    + vm_compute; reflexivity.
    + vm_compute; discriminate.
  - apply Hnone. vm_compute; reflexivity.
Defined.

(** C8 as stated fails: with no driver associated with the unit, a release
    is a no-op that is not reported. *)
Lemma C8_release_without_driver_not_reported :
  __cpuidle_get_cpu_driver K_percpu boot 0 = None ∧
  cpuidle_driver_unref K_percpu 0 boot = Some boot ∧
  ¬ release_reported K_percpu 0 boot.
Proof.
  split; [reflexivity|]. split; [reflexivity|].
  intros (r' & Hrun & Hw). vm_compute in Hrun. injection Hrun as <-.
  vm_compute in Hw. discriminate Hw.
Qed.

(** C5, as amended.  Initialisation at registration only ever raises
    [bctimer]: afterwards the flag is set exactly when it was already set
    at the call or some state of the table carries [TIMER_STOP]; for a
    driver object handed over with the flag clear, exactly when some state
    carries [TIMER_STOP].  After that the flag keeps its value under
    acquire, release, operations on other drivers, and an unregistration
    refused for outstanding references. *)
Theorem C5_broadcast_flag (K : kconfig) (l : loc) :
  (∀ d r,
     mem r !! l = Some d → wf_driver d →
     ∃ d1, __cpuidle_driver_init K l r = Some (store l d1 r) ∧
           bctimer d1 = needs_timer_stop K d || bctimer d ∧
           (bctimer d = false →
            (bctimer d1 = true ↔
             ∃ s, s ∈ state_table d ∧ timer_stop K s = true))) ∧
  (∀ os r1 r2 d1,
     mem r1 !! l = Some d1 → Forall (leaves_registration l) os →
     run K os r1 = Some r2 →
     ∃ d2, mem r2 !! l = Some d2 ∧ bctimer d2 = bctimer d1) ∧
  (∀ r1 d1,
     mem r1 !! l = Some d1 → (0 < refcnt d1)%Z →
     ∃ r2, cpuidle_unregister_driver K (Some l) r1 = Some r2 ∧
           mem r2 = mem r1).
Proof.
  split_and!.
  - intros d r Hd Hwf. exists (driver_after_init K d).
    split; [by apply driver_init_eq|]. split; [done|].
    intros Hclear. cbn. rewrite Hclear, orb_false_r.
    unfold needs_timer_stop. rewrite existsb_exists.
    split; intros (s & Hin & Hs); exists s; split; try done;
      by apply list_elem_of_In.
  - intros os r1 r2 d1 Hd Hos Hrun.
    destruct (run_frame K os l r1 r2 d1 Hd Hos Hrun) as (d2 & ? & ? & _).
    by exists d2.
  - intros r1 d1 Hd Hrc. rewrite (unregister_refused K l r1 d1 Hd Hrc).
    by eexists.
Qed.

Lemma C5_broadcast_flag_witness :
  (∃ d1, __cpuidle_driver_init K_percpu addr_A boot
           = Some (store addr_A d1 boot) ∧
         bctimer d1 = needs_timer_stop K_percpu drv_A || bctimer drv_A ∧
         (bctimer drv_A = false →
          (bctimer d1 = true ↔
           ∃ s, s ∈ state_table drv_A ∧ timer_stop K_percpu s = true))) ∧
  (∃ d2, mem (after K_percpu
                [Register (Some addr_A); Acquire 0; Register (Some addr_B);
                 Release 1] boot) !! addr_A = Some d2 ∧
         bctimer d2 = bctimer drv_A_registered) ∧
  (∃ r2, cpuidle_unregister_driver K_percpu (Some addr_A) reg_A_held
           = Some r2 ∧
         mem r2 = mem reg_A_held).
Proof.
  destruct (C5_broadcast_flag K_percpu addr_A) as (Hinit & Hrun & Hrefused).
  split_and!.
  - apply Hinit; [reflexivity|]. vm_compute. intuition discriminate.
  - apply (Hrun [Acquire 0; Register (Some addr_B); Release 1] reg_A).
    + vm_compute; reflexivity.
    + repeat constructor; discriminate.
    + vm_compute; reflexivity.
  - apply (Hrefused reg_A_held (set_refcnt 1 drv_A_registered)).
    + vm_compute; reflexivity.
    + vm_compute; reflexivity.
Defined.

(** C5 as stated fails: a driver object that arrives with the flag set
    keeps it through initialisation, although none of its states carries
    [TIMER_STOP]. *)
Lemma C5_stale_flag_survives_init :
  needs_timer_stop K_percpu drv_stale = false ∧
  mem boot !! addr_stale = Some drv_stale ∧
  (r ← __cpuidle_driver_init K_percpu addr_stale boot;
   d ← mem r !! addr_stale; Some (bctimer d)) = Some true.
Proof. split; [reflexivity|]. split; reflexivity. Qed.

(** C6, as amended.  When [register(D)] returns [-EINVAL] (also for a
    NULL driver) or [-ENODEV], the object of D and the whole registry are
    as before the call.  When
    it returns [-EBUSY], D's states and state count are as before, but its
    reference count has been reset to 0, a NULL mask has been replaced by
    the mask of all possible units and [bctimer] has been raised if a state
    carries [TIMER_STOP] (it is never cleared); no other driver object
    changes, no call to the broadcast-timer coordinator and no report is
    made, and no association changes except that units of D's mask that
    were associated with D itself are cleared. *)
Theorem C6_failed_register (K : kconfig) (l : loc) (d : cpuidle_driver)
    (r r' : registry) (ret : Z) :
  mem r !! l = Some d →
  cpuidle_register_driver K (Some l) r = Some (ret, r') →
  ret ≠ 0%Z →
  (ret = (- EINVAL)%Z ∨ ret = (- ENODEV)%Z ∨ ret = (- EBUSY)%Z) ∧
  (ret ≠ (- EBUSY)%Z → r' = r) ∧
  (ret = (- EBUSY)%Z →
   ∃ d', mem r' = <[l:=d']> (mem r) ∧
         states d' = states d ∧ state_count d' = state_count d ∧
         refcnt d' = 0%Z ∧ cpumask d' = Some (mask_of K d) ∧
         (bctimer d = true → bctimer d' = true) ∧
         (wf_driver d → bctimer d' = needs_timer_stop K d || bctimer d) ∧
         off r' = off r ∧ broadcast_calls r' = broadcast_calls r ∧
         warnings r' = warnings r ∧
         ∀ cpu, __cpuidle_get_cpu_driver K r' cpu =
                  __cpuidle_get_cpu_driver K r cpu ∨
                (cpu ∈ units K (mask_of K d) ∧
                 __cpuidle_get_cpu_driver K r cpu = Some l ∧
                 __cpuidle_get_cpu_driver K r' cpu = None)) ∧
  cpuidle_register_driver K None r = Some ((- EINVAL)%Z, r).
Proof.
  intros Hd Hrun Hret. apply (register_sound K l d) in Hrun; [|done].
  split_and!; [| | |done].
  - destruct (register_outcome_codes K l d r r' ret Hrun)
      as [?|[?|[?|?]]]; auto. done.
  - intros Hnb. apply (register_outcome_error K l d r r' ret Hrun).
    destruct (register_outcome_codes K l d r r' ret Hrun)
      as [?|[?|[?|?]]]; auto; done.
  - intros ->. apply register_outcome_busy in Hrun
      as (b & Hb & Hwf & Hmem & Hoff & Hbc & Hw & _ & Hget).
    exists (init_with K b d). split_and!; try done.
    intros cpu. rewrite (Hget cpu).
    destruct (CONFIG_CPU_IDLE_MULTIPLE_DRIVERS K); [|by left].
    case_decide as Hc; [right|by left]. by destruct Hc.
Qed.

Lemma C6_failed_register_witness :
  mem reg_A !! addr_B = Some drv_B ∧
  cpuidle_register_driver K_percpu (Some addr_B) reg_A
    = Some ((- EBUSY)%Z, reg_A) ∧
  ((- EBUSY)%Z = (- EINVAL)%Z ∨ (- EBUSY)%Z = (- ENODEV)%Z ∨
   (- EBUSY)%Z = (- EBUSY)%Z) ∧
  ((- EBUSY)%Z ≠ (- EBUSY)%Z → reg_A = reg_A) ∧
  ((- EBUSY)%Z = (- EBUSY)%Z →
   ∃ d', mem reg_A = <[addr_B:=d']> (mem reg_A) ∧
         states d' = states drv_B ∧ state_count d' = state_count drv_B ∧
         refcnt d' = 0%Z ∧ cpumask d' = Some (mask_of K_percpu drv_B) ∧
         (bctimer drv_B = true → bctimer d' = true) ∧
         (wf_driver drv_B →
          bctimer d' = needs_timer_stop K_percpu drv_B || bctimer drv_B) ∧
         off reg_A = off reg_A ∧
         broadcast_calls reg_A = broadcast_calls reg_A ∧
         warnings reg_A = warnings reg_A ∧
         ∀ cpu, __cpuidle_get_cpu_driver K_percpu reg_A cpu =
                  __cpuidle_get_cpu_driver K_percpu reg_A cpu ∨
                (cpu ∈ units K_percpu (mask_of K_percpu drv_B) ∧
                 __cpuidle_get_cpu_driver K_percpu reg_A cpu = Some addr_B ∧
                 __cpuidle_get_cpu_driver K_percpu reg_A cpu = None)) ∧
  cpuidle_register_driver K_percpu None reg_A = Some ((- EINVAL)%Z, reg_A).
Proof.
  split; [vm_compute; reflexivity|]. split; [vm_compute; reflexivity|].
  apply (C6_failed_register K_percpu addr_B drv_B reg_A reg_A).
  - vm_compute; reflexivity.
  - vm_compute; reflexivity.
  - vm_compute; discriminate.
Defined.

(** C6 as stated fails: a registration refused with [-EBUSY] has already
    initialised the driver object.  Driver C, handed over with a NULL mask
    and a clear flag, comes back from the refused call with the mask of all
    possible units and the flag set. *)
Lemma C6_busy_register_changes_driver :
  mem reg_A !! addr_C = Some drv_C ∧
  fst <$> cpuidle_register_driver K_percpu (Some addr_C) reg_A
    = Some (- EBUSY)%Z ∧
  (res ← cpuidle_register_driver K_percpu (Some addr_C) reg_A;
   mem (snd res) !! addr_C)
    = Some (CpuidleDriver 0 true (states drv_C) (state_count drv_C)
                          (Some 15%Z)) ∧
  CpuidleDriver 0 true (states drv_C) (state_count drv_C) (Some 15%Z)
    ≠ drv_C.
Proof.
  split_and!; [vm_compute; reflexivity..|]. discriminate.
Qed.


(** * Further properties of the code *)

(** ** Stores, lookups and runs *)

Section MoreFacts.

Variable K : kconfig.

Lemma store_store (l : loc) (d1 d2 : cpuidle_driver) (r : registry) :
  store l d2 (store l d1 r) = store l d2 r.
Proof. apply registry_eq; cbn; try done. apply insert_insert_eq. Qed.

Lemma store_same (l : loc) (d : cpuidle_driver) (r : registry) :
  mem r !! l = Some d → store l d r = r.
Proof. intros Hd. apply registry_eq; cbn; try done. by apply insert_id. Qed.

Lemma set_refcnt_same (d : cpuidle_driver) : set_refcnt (refcnt d) d = d.
Proof. by destruct d. Qed.

Lemma get_cpu_driver_store (l : loc) (d : cpuidle_driver) (r : registry)
    (cpu : nat) :
  __cpuidle_get_cpu_driver K (store l d r) cpu =
  __cpuidle_get_cpu_driver K r cpu.
Proof.
  unfold __cpuidle_get_cpu_driver.
  by destruct (CONFIG_CPU_IDLE_MULTIPLE_DRIVERS K).
Qed.

Lemma run_app (os1 os2 : list op) (r : registry) :
  run K (os1 ++ os2) r = run K os1 r ≫= run K os2.
Proof.
  revert r. induction os1 as [|o os1 IH]; intros r; cbn; [done|].
  destruct (step K o r) as [r1|]; cbn; [apply IH|done].
Qed.

(** The slots after [__cpuidle_unset_driver]: exactly the units that were
    associated with the driver are cleared, and with one slot per CPU only
    those of its mask. *)
Lemma unset_driver_lookup (l : loc) (r r' : registry) (d : cpuidle_driver)
    (m : cpumask_t) :
  mem r !! l = Some d → cpumask d = Some m →
  __cpuidle_unset_driver K l r = Some r' →
  ∀ cpu, __cpuidle_get_cpu_driver K r' cpu =
         if decide ((CONFIG_CPU_IDLE_MULTIPLE_DRIVERS K = true →
                     cpu ∈ units K m) ∧
                    __cpuidle_get_cpu_driver K r cpu = Some l)
         then None else __cpuidle_get_cpu_driver K r cpu.
Proof.
  intros Hd Hm. unfold __cpuidle_unset_driver, __cpuidle_get_cpu_driver.
  destruct (CONFIG_CPU_IDLE_MULTIPLE_DRIVERS K).
  - unfold MultipleDrivers.__cpuidle_unset_driver,
      MultipleDrivers.__cpuidle_get_cpu_driver.
    rewrite Hd. cbn. rewrite Hm. cbn. intros [= <-] cpu.
    rewrite MultipleDriversFacts.unset_driver_loop_lookup.
    destruct (decide (cpu ∈ for_each_cpu K m ∧
                      cpuidle_drivers r !! cpu = Some l)) as [[Hin Hl]|Hn].
    + by rewrite decide_True.
    + rewrite decide_False; [done|]. intros [Hin Hl]. apply Hn.
      split; [by apply Hin|done].
  - unfold SingleDriver.__cpuidle_unset_driver,
      SingleDriver.__cpuidle_get_cpu_driver.
    case_decide as Hc; intros [= <-] cpu; cbn.
    + by rewrite decide_True.
    + rewrite decide_False; [done|]. intros [_ ?]. by apply Hc.
Qed.

(** The slots after an unregistration that goes through. *)
Lemma unregister_lookup (l : loc) (r r' : registry) (d : cpuidle_driver)
    (m : cpumask_t) :
  mem r !! l = Some d → (refcnt d ≤ 0)%Z → cpumask d = Some m →
  cpuidle_unregister_driver K (Some l) r = Some r' →
  ∀ cpu, __cpuidle_get_cpu_driver K r' cpu =
         if decide ((CONFIG_CPU_IDLE_MULTIPLE_DRIVERS K = true →
                     cpu ∈ units K m) ∧
                    __cpuidle_get_cpu_driver K r cpu = Some l)
         then None else __cpuidle_get_cpu_driver K r cpu.
Proof.
  intros Hd Hrc Hm.
  unfold cpuidle_unregister_driver, __cpuidle_unregister_driver.
  cbn. rewrite Hd. cbn. unfold WARN_ON.
  destruct (Z.ltb_spec 0 (refcnt d)) as [|_]; [lia|].
  destruct (bctimer d); cbn.
  - rewrite Hm. cbn. intros Hrun.
    intros cpu.
    rewrite (unset_driver_lookup l _ r' (set_bctimer false d) m
               (lookup_insert_eq _ _ _) Hm Hrun cpu).
    unfold __cpuidle_get_cpu_driver.
    by destruct (CONFIG_CPU_IDLE_MULTIPLE_DRIVERS K).
  - by apply (unset_driver_lookup l r r' d m).
Qed.

(** Whatever it does, an unregistration changes no slot other than by
    clearing one that pointed to the driver. *)
Lemma unregister_slots (l : loc) (r r' : registry) :
  cpuidle_unregister_driver K (Some l) r = Some r' →
  ∀ cpu, __cpuidle_get_cpu_driver K r' cpu = __cpuidle_get_cpu_driver K r cpu ∨
         (__cpuidle_get_cpu_driver K r cpu = Some l ∧
          __cpuidle_get_cpu_driver K r' cpu = None).
Proof.
  unfold cpuidle_unregister_driver, __cpuidle_unregister_driver. cbn.
  intros Hrun. apply bind_Some in Hrun as (d & Hd & Hrun).
  unfold WARN_ON in Hrun. destruct (0 <? refcnt d)%Z.
  { injection Hrun as <-. by left. }
  apply bind_Some in Hrun as (r1 & Hr1 & Hrun).
  apply unset_driver_inv in Hrun as (_ & _ & _ & _ & Hget).
  assert (∀ cpu, __cpuidle_get_cpu_driver K r1 cpu =
                 __cpuidle_get_cpu_driver K r cpu) as Hsame.
  { intros cpu. destruct (bctimer d).
    - apply bind_Some in Hr1 as (m & _ & [= <-]).
      apply (get_cpu_driver_store l (set_bctimer false d) r cpu).
    - by injection Hr1 as <-. }
  intros cpu. rewrite <- !Hsame. apply Hget.
Qed.

(** The object a registration leaves for the driver it was called on: the
    state count, the size of the states array and the states after index 0
    are the driver's own, and so is the entry at index 0 in a build without
    the polling state. *)
Lemma register_outcome_object (l : loc) (d : cpuidle_driver)
    (r r' : registry) (ret : Z) :
  mem r !! l = Some d → register_outcome K l d r ret r' →
  ∃ d', mem r' = <[l:=d']> (mem r) ∧
        state_count d' = state_count d ∧
        drop 1 (states d') = drop 1 (states d) ∧
        length (states d') = length (states d) ∧
        (CONFIG_ARCH_HAS_CPU_RELAX K = false → states d' = states d) ∧
        (∀ m, cpumask d = Some m → cpumask d' = Some m).
Proof.
  intros Hd [ | |b r1 _ _ _ _ Hcase|b r1 _ _ _ _ _ Hmem _ _ _ _].
  - exists d. by rewrite insert_id.
  - exists d. by rewrite insert_id.
  - exists (init_with K b d).
    assert (mem r1 = <[l:=init_with K b d]> (mem r)) as ->.
    { destruct (CONFIG_CPU_IDLE_MULTIPLE_DRIVERS K).
      - destruct Hcase as (_ & ->).
        by destruct (MultipleDriversFacts.unset_driver_loop_frame l
                       (units K (mask_of K d)) (store l (init_with K b d) r))
          as (_ & -> & _).
      - by destruct Hcase as (_ & ->). }
    split_and!; try done. intros m Hm. cbn. unfold mask_of. by rewrite Hm.
  - exists (finalize K (init_with K b d)). split; [done|].
    unfold finalize. destruct (CONFIG_ARCH_HAS_CPU_RELAX K); cbn.
    + split_and!; try done.
      * by destruct (states d).
      * by destruct (states d).
      * intros m Hm. unfold mask_of. by rewrite Hm.
    + split_and!; try done. intros m Hm. unfold mask_of. by rewrite Hm.
Qed.

(** One operation, seen from any driver object: the registry leaves the
    state count, the size of the states array, the states after index 0
    and a mask that is set as they are. *)
Lemma step_states (o : op) (r r' : registry) (l : loc) (d : cpuidle_driver) :
  step K o r = Some r' → mem r !! l = Some d →
  ∃ d', mem r' !! l = Some d' ∧
        state_count d' = state_count d ∧
        drop 1 (states d') = drop 1 (states d) ∧
        length (states d') = length (states d) ∧
        (CONFIG_ARCH_HAS_CPU_RELAX K = false → states d' = states d) ∧
        (∀ m, cpumask d = Some m → cpumask d' = Some m).
Proof.
  intros Hstep Hd.
  assert (o = Register (Some l) ∨ o = Unregister (Some l) ∨
          (o ≠ Register (Some l) ∧ o ≠ Unregister (Some l))) as Hcase.
  { destruct o as [[l0|]|[l0|]|cpu|cpu];
      try (right; right; split; discriminate).
    - destruct (decide (l0 = l)) as [->|Hne]; [by left|].
      right; right. split; [congruence|discriminate].
    - destruct (decide (l0 = l)) as [->|Hne]; [right; by left|].
      right; right. split; [discriminate|congruence]. }
  destruct Hcase as [->|[->|[Ho1 Ho2]]].
  - cbn in Hstep. apply fmap_Some in Hstep as ([ret r1] & Hrun & ->). cbn.
    apply (register_sound K l d) in Hrun; [|done].
    destruct (register_outcome_object l d r r1 ret Hd Hrun)
      as (d' & -> & Hrest).
    exists d'. by rewrite lookup_insert_eq.
  - cbn in Hstep.
    destruct (unregister_mem K l r r' d Hd Hstep) as [->| ->].
    + exists d. by split_and!.
    + exists (set_bctimer false d). rewrite lookup_insert_eq.
      by split_and!.
  - destruct (step_frame K o r r' l d Hstep Hd)
      as (d' & Hd' & _ & Hsame).
    destruct (Hsame Ho1 Ho2) as (_ & Hm & Hs & Hc).
    exists d'. rewrite Hs, Hc, Hm. by split_and!.
Qed.

End MoreFacts.

(** ** Registration: the return value, and undoing it *)

(** The checks of [cpuidle_register_driver] come in a fixed order: a zero
    state count gives [-EINVAL] whatever else holds, then a disabled
    framework gives [-ENODEV], and only then the slots decide between
    [-EBUSY] and 0. *)
Theorem register_return_code (K : kconfig) (l : loc) (d : cpuidle_driver)
    (r : registry) :
  mem r !! l = Some d → wf_driver d →
  ∃ ret, register_code K (Some l) r = Some ret ∧
         (state_count d = 0%Z → ret = (- EINVAL)%Z) ∧
         (state_count d ≠ 0%Z → off r = true → ret = (- ENODEV)%Z) ∧
         (state_count d ≠ 0%Z → off r = false →
          mask_free K r (mask_of K d) → ret = 0%Z) ∧
         (state_count d ≠ 0%Z → off r = false →
          ¬ mask_free K r (mask_of K d) → ret = (- EBUSY)%Z).
Proof.
  intros Hd Hwf.
  destruct (register_total K l d r Hd Hwf) as (ret & r' & Hrun).
  exists ret. unfold register_code. rewrite Hrun. split; [done|].
  apply (register_sound K l d) in Hrun; [|done].
  destruct Hrun as [Hsc|Hsc Hoff|b r1 Hsc Hoff _ _ Hcase
                   |b r1 Hsc Hoff _ _ _ _ _ _ _ Hcase].
  - split_and!; [done|intros; done..].
  - split_and!; [done|done|intros; congruence..].
  - split_and!; [done|intros; congruence| |done].
    intros _ _ Hfree. exfalso. revert Hfree Hcase. unfold mask_free.
    destruct (CONFIG_CPU_IDLE_MULTIPLE_DRIVERS K).
    + intros Hfree ((cpu & Hin & Hbusy) & _). by apply Hbusy, Hfree.
    + intros Hfree (Hbusy & _). done.
  - split_and!; [done|intros; congruence|done|].
    intros _ _ Hnot. exfalso. apply Hnot. revert Hcase. unfold mask_free.
    destruct (CONFIG_CPU_IDLE_MULTIPLE_DRIVERS K); intros Hcase;
      apply Hcase.
Qed.

Lemma register_return_code_witness :
  ∃ ret, register_code K_percpu (Some addr_B) reg_A = Some ret ∧
         (state_count drv_B = 0%Z → ret = (- EINVAL)%Z) ∧
         (state_count drv_B ≠ 0%Z → off reg_A = true →
          ret = (- ENODEV)%Z) ∧
         (state_count drv_B ≠ 0%Z → off reg_A = false →
          mask_free K_percpu reg_A (mask_of K_percpu drv_B) → ret = 0%Z) ∧
         (state_count drv_B ≠ 0%Z → off reg_A = false →
          ¬ mask_free K_percpu reg_A (mask_of K_percpu drv_B) →
          ret = (- EBUSY)%Z).
Proof.
  apply (register_return_code K_percpu addr_B drv_B reg_A).
  - vm_compute; reflexivity.
  - vm_compute. intuition discriminate.
Defined.

(** A registration that succeeded is undone by the unregistration that
    follows it: every unit has the association it had before the
    registration, no report is made, the calls to the broadcast-timer
    coordinator come in an enable/disable pair over the same mask or not at
    all, no other driver object changes, and the driver is left with a
    zero reference count and a clear broadcast-timer flag. *)
Theorem register_unregister_round_trip (K : kconfig) (l : loc)
    (d : cpuidle_driver) (r r1 : registry) :
  mem r !! l = Some d →
  cpuidle_register_driver K (Some l) r = Some (0%Z, r1) →
  ∃ r2, cpuidle_unregister_driver K (Some l) r1 = Some r2 ∧
        (∀ cpu, __cpuidle_get_cpu_driver K r2 cpu =
                __cpuidle_get_cpu_driver K r cpu) ∧
        warnings r2 = warnings r ∧ off r2 = off r ∧
        (broadcast_calls r2 = broadcast_calls r ∨
         broadcast_calls r2 =
           broadcast_calls r ++
           [(CLOCK_EVT_NOTIFY_BROADCAST_ON, mask_of K d);
            (CLOCK_EVT_NOTIFY_BROADCAST_OFF, mask_of K d)]) ∧
        (∀ l', l' ≠ l → mem r2 !! l' = mem r !! l') ∧
        ∃ d2, mem r2 !! l = Some d2 ∧ bctimer d2 = false ∧
              refcnt d2 = 0%Z ∧ state_count d2 = state_count d.
Proof.
  intros Hd Hrun. apply (register_sound K l d) in Hrun; [|done].
  inversion Hrun as [ | | |b r1' Hsc Hoff _ _ _ Hmem Hoff1 Hbc Hw Hcase];
    subst.
  set (d1 := finalize K (init_with K b d)) in *.
  assert (mem r1 !! l = Some d1) as Hd1
    by (rewrite Hmem; apply lookup_insert_eq).
  assert (refcnt d1 = 0%Z ∧ cpumask d1 = Some (mask_of K d) ∧
          bctimer d1 = b ∧ state_count d1 = state_count d)
    as (Hrc1 & Hm1 & Hb1 & Hsc1).
  { unfold d1, finalize. by destruct (CONFIG_ARCH_HAS_CPU_RELAX K). }
  destruct (unregister_accepted K l r1 d1 (mask_of K d) Hd1 ltac:(lia) Hm1)
    as (r2 & Hun & Hmem2 & Hoff2 & Hw2 & Hbc2 & _).
  exists r2. split; [done|].
  pose proof (unregister_lookup K l r1 r2 d1 (mask_of K d) Hd1
                ltac:(lia) Hm1 Hun) as Hget.
  split_and!.
  - intros cpu. rewrite (Hget cpu). revert Hcase.
    unfold __cpuidle_get_cpu_driver, MultipleDrivers.__cpuidle_get_cpu_driver,
      SingleDriver.__cpuidle_get_cpu_driver.
    destruct (CONFIG_CPU_IDLE_MULTIPLE_DRIVERS K).
    + intros (Hfree & Hlook & _). rewrite (Hlook cpu).
      destruct (decide (cpu ∈ units K (mask_of K d))) as [Hin|Hout].
      * rewrite decide_True by done. symmetry. by apply Hfree.
      * rewrite decide_False; [done|]. intros [Hin _]. by apply Hout, Hin.
    + intros (Hfree & Hcur & _). rewrite Hcur, Hfree.
      by rewrite decide_True.
  - congruence.
  - congruence.
  - rewrite Hbc2, Hbc, Hb1. unfold enable_calls.
    destruct b; [right|left]; by rewrite <- ?app_assoc, ?app_nil_r.
  - intros l' Hne. rewrite Hmem2, Hmem.
    destruct (bctimer d1); by rewrite !lookup_insert_ne.
  - rewrite Hmem2. destruct (bctimer d1) eqn:Hflag.
    + eexists. rewrite lookup_insert_eq. by split_and!.
    + exists d1. by split_and!.
Qed.

Lemma register_unregister_round_trip_witness :
  ∃ r2, cpuidle_unregister_driver K_percpu (Some addr_A) reg_A = Some r2 ∧
        (∀ cpu, __cpuidle_get_cpu_driver K_percpu r2 cpu =
                __cpuidle_get_cpu_driver K_percpu boot cpu) ∧
        warnings r2 = warnings boot ∧ off r2 = off boot ∧
        (broadcast_calls r2 = broadcast_calls boot ∨
         broadcast_calls r2 =
           broadcast_calls boot ++
           [(CLOCK_EVT_NOTIFY_BROADCAST_ON, mask_of K_percpu drv_A);
            (CLOCK_EVT_NOTIFY_BROADCAST_OFF, mask_of K_percpu drv_A)]) ∧
        (∀ l', l' ≠ addr_A → mem r2 !! l' = mem boot !! l') ∧
        ∃ d2, mem r2 !! addr_A = Some d2 ∧ bctimer d2 = false ∧
              refcnt d2 = 0%Z ∧ state_count d2 = state_count drv_A.
Proof.
  apply (register_unregister_round_trip K_percpu addr_A drv_A boot reg_A).
  - reflexivity.
  - vm_compute; reflexivity.
Defined.

(** Claiming the slots and releasing them again gives back the registry
    the claim started from, in both configurations. *)
Theorem set_unset_round_trip (K : kconfig) (l : loc) (r r1 : registry) :
  __cpuidle_set_driver K l r = Some (0%Z, r1) →
  __cpuidle_unset_driver K l r1 = Some r.
Proof.
  unfold __cpuidle_set_driver, __cpuidle_unset_driver.
  destruct (CONFIG_CPU_IDLE_MULTIPLE_DRIVERS K).
  - intros Hset.
    assert (∃ d m, mem r !! l = Some d ∧ cpumask d = Some m)
      as (d & m & Hd & Hm).
    { revert Hset. unfold MultipleDrivers.__cpuidle_set_driver.
      intros Hset. apply bind_Some in Hset as (d & Hd & Hset).
      apply bind_Some in Hset as (m & Hm & _). eauto. }
    destruct (MultipleDriversFacts.free_or_busy K m r) as [Hfree|Hbusy].
    + destruct (MultipleDriversFacts.set_driver_free K l d m r Hd Hm Hfree)
        as (r1' & Hr1 & Hframe & Hlook).
      rewrite Hr1 in Hset. injection Hset as <-.
      destruct Hframe as (Hcur & Hmem & Hoff & Hbc & Hw).
      unfold MultipleDrivers.__cpuidle_unset_driver.
      rewrite Hmem, Hd. cbn. rewrite Hm. cbn. f_equal.
      destruct (MultipleDriversFacts.unset_driver_loop_frame l
                  (for_each_cpu K m) r1') as (? & ? & ? & ? & ?).
      apply registry_eq; try congruence.
      apply map_eq. intros cpu.
      rewrite MultipleDriversFacts.unset_driver_loop_lookup, Hlook.
      destruct (decide (cpu ∈ for_each_cpu K m)) as [Hin|Hout].
      * rewrite decide_True by done. symmetry. by apply Hfree.
      * rewrite decide_False; [done|]. by intros [? _].
    + rewrite (MultipleDriversFacts.set_driver_busy K l d m r Hd Hm Hbusy)
        in Hset. discriminate Hset.
  - unfold SingleDriver.__cpuidle_set_driver,
      SingleDriver.__cpuidle_unset_driver.
    destruct (cpuidle_curr_driver r) eqn:Hcur; [discriminate|].
    intros [= <-]. cbn. rewrite decide_True by done. f_equal.
    by apply registry_eq.
Qed.

Lemma set_unset_round_trip_witness :
  __cpuidle_set_driver K_percpu addr_A boot
    = Some (0%Z, set_cpuidle_drivers (<[0:=addr_A]> (<[1:=addr_A]> ∅)) boot) ∧
  __cpuidle_unset_driver K_percpu addr_A
    (set_cpuidle_drivers (<[0:=addr_A]> (<[1:=addr_A]> ∅)) boot) = Some boot.
Proof.
  split; [vm_compute; reflexivity|].
  apply (set_unset_round_trip K_percpu addr_A boot).
  vm_compute; reflexivity.
Defined.

(** ** References taken and given back *)

Section CountingFacts.

Variable K : kconfig.

Lemma acquire_n (cpu : nat) (l : loc) (n : nat) :
  ∀ (r : registry) (d : cpuidle_driver),
    __cpuidle_get_cpu_driver K r cpu = Some l → mem r !! l = Some d →
    (0 ≤ refcnt d)%Z → (refcnt d + Z.of_nat n ≤ INT_MAX)%Z →
    run K (repeat (Acquire cpu) n) r =
    Some (store l (set_refcnt (refcnt d + Z.of_nat n) d) r).
Proof.
  induction n as [|n IH]; intros r d Hget Hd Hpos Hmax.
  - cbn. rewrite Z.add_0_r, set_refcnt_same. by rewrite store_same.
  - cbn [repeat run step].
    rewrite (driver_ref_some K cpu r l d Hget Hd). cbn.
    rewrite wrap_int_id by (unfold int_range, INT_MIN, INT_MAX in *; lia).
    rewrite (IH _ (set_refcnt (refcnt d + 1) d)); cbn.
    + rewrite store_store. unfold set_refcnt. cbn.
      by replace (refcnt d + 1 + Z.of_nat n)%Z
        with (refcnt d + Z.of_nat (S n))%Z by lia.
    + by rewrite get_cpu_driver_store.
    + apply lookup_insert_eq.
    + lia.
    + lia.
Qed.

Lemma release_n (cpu : nat) (l : loc) (n : nat) :
  ∀ (r : registry) (d : cpuidle_driver) (c : Z),
    __cpuidle_get_cpu_driver K r cpu = Some l → mem r !! l = Some d →
    (0 ≤ c)%Z → refcnt d = (c + Z.of_nat n)%Z → (refcnt d ≤ INT_MAX)%Z →
    run K (repeat (Release cpu) n) r = Some (store l (set_refcnt c d) r).
Proof.
  induction n as [|n IH]; intros r d c Hget Hd Hpos Hrc Hmax.
  - cbn. rewrite Z.add_0_r in Hrc. rewrite <- Hrc, set_refcnt_same.
    by rewrite store_same.
  - cbn [repeat run step].
    rewrite (driver_unref_positive K cpu r l d Hget Hd ltac:(lia)). cbn.
    rewrite wrap_int_id by (unfold int_range, INT_MIN, INT_MAX in *; lia).
    rewrite (IH _ (set_refcnt (refcnt d - 1) d) c); cbn.
    + by rewrite store_store.
    + by rewrite get_cpu_driver_store.
    + apply lookup_insert_eq.
    + lia.
    + lia.
    + lia.
Qed.

End CountingFacts.

(** References are counted: [n] acquisitions on a unit raise the count of
    its driver by [n] (as long as that fits a C [int]) and change nothing
    else, and the [n] releases that follow give back the registry as it
    was before the first acquisition. *)
Theorem hold_and_release_round_trip (K : kconfig) (cpu n : nat)
    (r : registry) (l : loc) (d : cpuidle_driver) :
  __cpuidle_get_cpu_driver K r cpu = Some l → mem r !! l = Some d →
  (0 ≤ refcnt d)%Z → (refcnt d + Z.of_nat n ≤ INT_MAX)%Z →
  run K (repeat (Acquire cpu) n) r =
    Some (store l (set_refcnt (refcnt d + Z.of_nat n) d) r) ∧
  run K (hold_and_release cpu n) r = Some r.
Proof.
  intros Hget Hd Hpos Hmax.
  pose proof (acquire_n K cpu l n r d Hget Hd Hpos Hmax) as Hacq.
  split; [done|].
  unfold hold_and_release. rewrite run_app, Hacq. cbn.
  rewrite (release_n K cpu l n _ (set_refcnt (refcnt d + Z.of_nat n) d)
             (refcnt d)); cbn.
  - rewrite store_store.
    change (set_refcnt (refcnt d) (set_refcnt (refcnt d + Z.of_nat n) d))
      with (set_refcnt (refcnt d) d).
    rewrite set_refcnt_same. by rewrite store_same.
  - by rewrite get_cpu_driver_store.
  - apply lookup_insert_eq.
  - done.
  - done.
  - done.
Qed.

Lemma hold_and_release_round_trip_witness :
  run K_percpu (repeat (Acquire 1) 3) reg_A =
    Some (store addr_A
            (set_refcnt (refcnt drv_A_registered + Z.of_nat 3)
                        drv_A_registered) reg_A) ∧
  run K_percpu (hold_and_release 1 3) reg_A = Some reg_A.
Proof.
  apply (hold_and_release_round_trip K_percpu 1 3 reg_A addr_A
           drv_A_registered).
  - vm_compute; reflexivity.
  - vm_compute; reflexivity.
  - vm_compute; discriminate.
  - vm_compute; discriminate.
Defined.

(** ** Unregistration and the other drivers *)

(** Whatever driver [cpuidle_unregister_driver] is called on, registered
    or not, refused or not: no association with another driver changes,
    no association appears, no other driver object changes; and when the
    driver holds no unit, every association is as before. *)
Theorem unregister_spares_other_drivers (K : kconfig) (l : loc)
    (r r' : registry) :
  cpuidle_unregister_driver K (Some l) r = Some r' →
  (∀ cpu l', l' ≠ l → associated K r cpu l' → associated K r' cpu l') ∧
  (∀ cpu l', associated K r' cpu l' → associated K r cpu l') ∧
  ((∀ cpu, ¬ associated K r cpu l) →
   ∀ cpu, __cpuidle_get_cpu_driver K r' cpu =
          __cpuidle_get_cpu_driver K r cpu) ∧
  (∀ l', l' ≠ l → mem r' !! l' = mem r !! l') ∧
  off r' = off r.
Proof.
  intros Hrun. pose proof (unregister_slots K l r r' Hrun) as Hget.
  unfold associated. split_and!.
  - intros cpu l' Hne Hl'. destruct (Hget cpu) as [->|[Hl _]]; congruence.
  - intros cpu l' Hl'. destruct (Hget cpu) as [<-|[_ Hnone]]; congruence.
  - intros Hnone cpu. destruct (Hget cpu) as [?|[Hl _]]; [done|].
    by destruct (Hnone cpu).
  - intros l' Hne.
    assert (is_Some (mem r !! l)) as [d Hd].
    { revert Hrun.
      unfold cpuidle_unregister_driver, __cpuidle_unregister_driver. cbn.
      intros Hrun. apply bind_Some in Hrun as (d & Hd & _). eauto. }
    destruct (unregister_mem K l r r' d Hd Hrun) as [->| ->]; [done|].
    by rewrite lookup_insert_ne.
  - revert Hrun.
    unfold cpuidle_unregister_driver, __cpuidle_unregister_driver. cbn.
    intros Hrun. apply bind_Some in Hrun as (d & Hd & Hrun).
    unfold WARN_ON in Hrun. destruct (0 <? refcnt d)%Z.
    { by injection Hrun as <-. }
    apply bind_Some in Hrun as (r1 & Hr1 & Hrun).
    apply unset_driver_inv in Hrun as (_ & -> & _).
    destruct (bctimer d).
    + by apply bind_Some in Hr1 as (m & _ & [= <-]).
    + by injection Hr1 as <-.
Qed.

Lemma unregister_spares_other_drivers_witness :
  cpuidle_unregister_driver K_percpu (Some addr_B) reg_A = Some reg_A ∧
  (∀ cpu l', l' ≠ addr_B → associated K_percpu reg_A cpu l' →
             associated K_percpu reg_A cpu l') ∧
  (∀ cpu l', associated K_percpu reg_A cpu l' →
             associated K_percpu reg_A cpu l') ∧
  ((∀ cpu, ¬ associated K_percpu reg_A cpu addr_B) →
   ∀ cpu, __cpuidle_get_cpu_driver K_percpu reg_A cpu =
          __cpuidle_get_cpu_driver K_percpu reg_A cpu) ∧
  (∀ l', l' ≠ addr_B → mem reg_A !! l' = mem reg_A !! l') ∧
  off reg_A = off reg_A.
Proof.
  split; [vm_compute; reflexivity|].
  apply (unregister_spares_other_drivers K_percpu addr_B reg_A reg_A).
  vm_compute; reflexivity.
Defined.

(** ** Masks and the two kinds of slots *)



(** With the single global slot the masks play no part: once a driver is
    registered every unit is associated with it, those outside its mask
    too, and the registration of any valid driver, whatever its mask, is
    refused with [-EBUSY] and leaves every unit with the first driver. *)
Theorem global_slot_ignores_masks (K : kconfig) (l1 l2 : loc)
    (d1 d2 : cpuidle_driver) (r r1 : registry) :
  CONFIG_CPU_IDLE_MULTIPLE_DRIVERS K = false →
  mem r !! l1 = Some d1 →
  cpuidle_register_driver K (Some l1) r = Some (0%Z, r1) →
  mem r1 !! l2 = Some d2 → wf_driver d2 → state_count d2 ≠ 0%Z →
  (∀ cpu, associated K r1 cpu l1) ∧
  ∃ r2, cpuidle_register_driver K (Some l2) r1 = Some ((- EBUSY)%Z, r2) ∧
        ∀ cpu, associated K r2 cpu l1.
Proof.
  intros HC Hd1 Hrun1 Hd2 Hwf2 Hsc2.
  apply (register_sound K l1 d1) in Hrun1; [|done].
  inversion Hrun1 as [ | | |b r1' _ Hoff _ _ _ _ Hoff1 _ _ Hcase]; subst.
  rewrite HC in Hcase. destruct Hcase as (_ & Hcur & _).
  assert (∀ r', cpuidle_curr_driver r' = Some l1 →
                ∀ cpu, associated K r' cpu l1) as Hall.
  { intros r' Hr' cpu. unfold associated, __cpuidle_get_cpu_driver.
    by rewrite HC. }
  split; [by apply Hall|].
  destruct (register_total K l2 d2 r1 Hd2 Hwf2) as (ret & r2 & Hrun2).
  pose proof (register_sound K l2 d2 r1 r2 ret Hd2 Hrun2) as Hout2.
  destruct Hout2 as [Hz|_ Hoff2|b2 r2 _ _ _ _ Hcase2
                    |b2 r2 _ _ _ _ _ _ _ _ _ Hcase2].
  - done.
  - congruence.
  - exists r2. split; [done|]. apply Hall.
    rewrite HC in Hcase2. by destruct Hcase2 as (_ & ->).
  - rewrite HC in Hcase2. destruct Hcase2 as (Hnone & _). congruence.
Qed.

Lemma global_slot_ignores_masks_witness :
  (∀ cpu, associated K_global
            (after K_global [Register (Some addr_A)] boot_D) cpu addr_A) ∧
  ∃ r2, cpuidle_register_driver K_global (Some addr_D)
          (after K_global [Register (Some addr_A)] boot_D)
          = Some ((- EBUSY)%Z, r2) ∧
        ∀ cpu, associated K_global r2 cpu addr_A.
Proof.
  apply (global_slot_ignores_masks K_global addr_A addr_D drv_A drv_D
           boot_D).
  - reflexivity.
  - vm_compute; reflexivity.
  - vm_compute; reflexivity.
  - vm_compute; reflexivity.
  - vm_compute. intuition discriminate.
  - vm_compute; discriminate.
Defined.

(** ** Invariants of runs *)

Section InvariantFacts.

Variable K : kconfig.

(** With one slot per CPU, an association found after an operation was
    there before it, or was made by a registration over a mask that holds
    the unit. *)
Lemma step_association (o : op) (r r' : registry) (cpu : nat) (l : loc) :
  CONFIG_CPU_IDLE_MULTIPLE_DRIVERS K = true →
  step K o r = Some r' → associated K r' cpu l →
  associated K r cpu l ∨
  ∃ d' m, mem r' !! l = Some d' ∧ cpumask d' = Some m ∧ cpu ∈ units K m.
Proof.
  intros HC Hstep Hl. unfold associated in *.
  destruct o as [[l0|]|[l0|]|cpu0|cpu0]; cbn in Hstep.
  - apply fmap_Some in Hstep as ([ret r1] & Hrun & ->). cbn in Hl.
    destruct (register_live _ _ _ _ Hrun) as [d0 Hd0].
    apply (register_sound K l0 d0) in Hrun; [|done].
    destruct (register_outcome_codes K l0 d0 r r1 ret Hrun)
      as [->|[->|[->| ->]]].
    + apply register_outcome_ok in Hrun
        as (b & _ & _ & _ & _ & _ & Hmem & _ & _ & _ & Hin & Hout).
      destruct (decide (cpu ∈ units K (mask_of K d0))) as [Hcpu|Hcpu].
      * right. pose proof (Hin cpu Hcpu) as Hl0. unfold associated in Hl0.
        assert (l = l0) as -> by congruence.
        exists (finalize K (init_with K b d0)), (mask_of K d0). cbn.
        rewrite Hmem, lookup_insert_eq. split_and!; try done.
        unfold finalize. by destruct (CONFIG_ARCH_HAS_CPU_RELAX K).
      * left. by rewrite <- (Hout cpu Hcpu HC).
    + left. by rewrite <- (register_outcome_error K l0 d0 r r1 _ Hrun)
        by (by left).
    + left. by rewrite <- (register_outcome_error K l0 d0 r r1 _ Hrun)
        by (by right).
    + apply register_outcome_busy in Hrun
        as (b & _ & _ & _ & _ & _ & _ & _ & Hget).
      left. rewrite Hget, HC in Hl. by case_decide.
  - injection Hstep as <-. by left.
  - left. destruct (unregister_slots K l0 r r' Hstep cpu) as [<-|[_ ?]];
      congruence.
  - discriminate Hstep.
  - left. apply fmap_Some in Hstep as ([p r1] & Hrun & ->). cbn in Hl.
    revert Hrun. unfold cpuidle_driver_ref, cpuidle_get_driver.
    destruct (__cpuidle_get_cpu_driver K r cpu0) as [l0|].
    + intros Hrun. apply bind_Some in Hrun as (d0 & _ & [= <- <-]).
      by rewrite get_cpu_driver_store in Hl.
    + by intros [= <- <-].
  - left. revert Hstep. unfold cpuidle_driver_unref, cpuidle_get_driver.
    destruct (__cpuidle_get_cpu_driver K r cpu0) as [l0|].
    + intros Hrun. apply bind_Some in Hrun as (d0 & _ & Hrun).
      unfold WARN_ON in Hrun.
      destruct (refcnt d0 <=? 0)%Z; cbn in Hrun; injection Hrun as <-.
      * revert Hl. unfold __cpuidle_get_cpu_driver.
        by destruct (CONFIG_CPU_IDLE_MULTIPLE_DRIVERS K).
      * by rewrite get_cpu_driver_store in Hl.
    + by intros [= <-].
Qed.

Lemma step_slots_in_masks (o : op) (r r' : registry) :
  CONFIG_CPU_IDLE_MULTIPLE_DRIVERS K = true →
  step K o r = Some r' → slots_in_masks K r → slots_in_masks K r'.
Proof.
  intros HC Hstep Hinv cpu l Hl.
  destruct (step_association o r r' cpu l HC Hstep Hl) as [Hold|Hnew];
    [|done].
  destruct (Hinv cpu l Hold) as (d & m & Hd & Hm & Hin).
  destruct (step_states K o r r' l d Hstep Hd)
    as (d' & Hd' & _ & _ & _ & _ & Hmask).
  exists d', m. split_and!; [done|by apply Hmask|done].
Qed.

End InvariantFacts.

(** With one slot per CPU, registry operations keep the slots within the
    masks: if every association leads to a live driver object whose mask
    holds the unit (as when no unit is associated), that is still so after
    any run of registrations, unregistrations, acquisitions and releases,
    refused ones included. *)
Theorem slots_in_masks_invariant (K : kconfig) (os : list op)
    (r1 r2 : registry) :
  CONFIG_CPU_IDLE_MULTIPLE_DRIVERS K = true →
  slots_in_masks K r1 → run K os r1 = Some r2 → slots_in_masks K r2.
Proof.
  intros HC. revert r1.
  induction os as [|o os IH]; intros r1 Hinv Hrun.
  - by injection Hrun as <-.
  - cbn [run] in Hrun. apply bind_Some in Hrun as (r & Hstep & Hrun).
    apply (IH r); [|done]. by apply (step_slots_in_masks K o r1).
Qed.

Lemma slots_in_masks_invariant_witness :
  slots_in_masks K_percpu
    (after K_percpu
       [Register ptr_A; Acquire 0; Register ptr_B; Unregister ptr_A;
        Release 0; Register ptr_A; Unregister ptr_A; Register ptr_B] boot).
Proof.
  apply (slots_in_masks_invariant K_percpu
           [Register ptr_A; Acquire 0; Register ptr_B; Unregister ptr_A;
            Release 0; Register ptr_A; Unregister ptr_A; Register ptr_B]
           boot).
  - reflexivity.
  - intros cpu l Hl. unfold associated, __cpuidle_get_cpu_driver in Hl.
    cbn in Hl. discriminate Hl.
  - vm_compute; reflexivity.
Defined.

(** The registry never drops a driver object and never touches what the
    platform code put in it beyond entry 0 of the states: over any run,
    the state count, the size of the states array, the states after index
    0 and a mask that is set stay as they were, and in a build without
    the polling state the whole states array does. *)
Theorem registry_keeps_driver_states (K : kconfig) (os : list op) (l : loc) :
  ∀ (r1 r2 : registry) (d1 : cpuidle_driver),
    mem r1 !! l = Some d1 → run K os r1 = Some r2 →
    ∃ d2, mem r2 !! l = Some d2 ∧
          state_count d2 = state_count d1 ∧
          drop 1 (states d2) = drop 1 (states d1) ∧
          length (states d2) = length (states d1) ∧
          (CONFIG_ARCH_HAS_CPU_RELAX K = false → states d2 = states d1) ∧
          (∀ m, cpumask d1 = Some m → cpumask d2 = Some m).
Proof.
  induction os as [|o os IH]; intros r1 r2 d1 Hd Hrun.
  - injection Hrun as <-. exists d1. by split_and!.
  - cbn [run] in Hrun. apply bind_Some in Hrun as (r & Hstep & Hrun).
    destruct (step_states K o r1 r l d1 Hstep Hd)
      as (d & Hd' & Hc & Hdrop & Hlen & Hall & Hmask).
    destruct (IH r r2 d Hd' Hrun)
      as (d2 & Hd2 & Hc2 & Hdrop2 & Hlen2 & Hall2 & Hmask2).
    exists d2. split_and!; try congruence.
    + intros Hrelax. rewrite (Hall2 Hrelax). by apply Hall.
    + intros m Hm. by apply Hmask2, Hmask.
Qed.

Lemma registry_keeps_driver_states_witness :
  ∃ d2, mem (after K_percpu
               [Register ptr_A; Acquire 0; Register ptr_A; Unregister ptr_A;
                Register ptr_A] boot) !! addr_A = Some d2 ∧
        state_count d2 = state_count drv_A ∧
        drop 1 (states d2) = drop 1 (states drv_A) ∧
        length (states d2) = length (states drv_A) ∧
        (CONFIG_ARCH_HAS_CPU_RELAX K_percpu = false →
         states d2 = states drv_A) ∧
        (∀ m, cpumask drv_A = Some m → cpumask d2 = Some m).
Proof.
  apply (registry_keeps_driver_states K_percpu
           [Register ptr_A; Acquire 0; Register ptr_A; Unregister ptr_A;
            Register ptr_A] addr_A boot).
  - reflexivity.
  - vm_compute; reflexivity.
Defined.

(** ** Initialisation, again and again *)

Lemma driver_after_init_idem (K : kconfig) (d : cpuidle_driver) :
  driver_after_init K (driver_after_init K d) = driver_after_init K d.
Proof.
  unfold driver_after_init, init_with, needs_timer_stop, state_table,
    mask_of. cbn.
  by destruct (existsb _ _), (bctimer d).
Qed.

(** Initialising a driver object twice gives what initialising it once
    gives: a registration that is tried again, as after a refusal, starts
    from the same object. *)
Theorem driver_init_idempotent (K : kconfig) (l : loc) (r : registry)
    (d : cpuidle_driver) :
  mem r !! l = Some d → wf_driver d →
  ∃ r1, __cpuidle_driver_init K l r = Some r1 ∧
        __cpuidle_driver_init K l r1 = Some r1.
Proof.
  intros Hd Hwf. exists (store l (driver_after_init K d) r).
  split; [by apply driver_init_eq|].
  rewrite (driver_init_eq K l _ (driver_after_init K d));
    [|apply lookup_insert_eq|by apply wf_driver_after_init].
  by rewrite driver_after_init_idem, store_store.
Qed.

Lemma driver_init_idempotent_witness :
  ∃ r1, __cpuidle_driver_init K_percpu addr_C boot = Some r1 ∧
        __cpuidle_driver_init K_percpu addr_C r1 = Some r1.
Proof.
  apply (driver_init_idempotent K_percpu addr_C boot drv_C).
  - reflexivity.
  - vm_compute. intuition discriminate.
Defined.

Lemma snprintf_idem (dst : string) (size : nat) (src : string) :
  snprintf (snprintf dst size src) size src = snprintf dst size src.
Proof. by destruct size. Qed.

(** Writing the polling state a second time changes nothing, whatever the
    name and description lengths of the build; and in a build without the
    polling state [poll_idle_init] does nothing at all. *)
Theorem poll_idle_init_idempotent (K : kconfig) (l : loc) (r r1 : registry) :
  poll_idle_init K l r = Some r1 →
  poll_idle_init K l r1 = Some r1 ∧
  (CONFIG_ARCH_HAS_CPU_RELAX K = false → r1 = r).
Proof.
  unfold poll_idle_init. destruct (CONFIG_ARCH_HAS_CPU_RELAX K).
  - intros Hrun. split; [|done].
    apply bind_Some in Hrun as (d & Hd & Hrun).
    apply bind_Some in Hrun as (s & Hs & [= <-]).
    cbn. rewrite lookup_insert_eq. cbn.
    destruct (states d) as [|s' rest] eqn:Hst; [done|].
    injection Hs as ->. cbn. f_equal.
    apply registry_eq; cbn; try done.
    rewrite insert_insert_eq. unfold set_states. cbn.
    by rewrite !snprintf_idem.
  - intros [= <-]. done.
Qed.

Lemma poll_idle_init_idempotent_witness :
  (poll_idle_init K_percpu addr_A boot
     = Some (store addr_A (finalize K_percpu drv_A) boot) ∧
   poll_idle_init K_percpu addr_A
     (store addr_A (finalize K_percpu drv_A) boot)
     = Some (store addr_A (finalize K_percpu drv_A) boot) ∧
   (CONFIG_ARCH_HAS_CPU_RELAX K_percpu = false →
    store addr_A (finalize K_percpu drv_A) boot = boot)) ∧
  (poll_idle_init K_norelax addr_A boot = Some boot ∧
   poll_idle_init K_norelax addr_A boot = Some boot ∧
   (CONFIG_ARCH_HAS_CPU_RELAX K_norelax = false → boot = boot)).
Proof.
  split.
  - split; [vm_compute; reflexivity|].
    apply (poll_idle_init_idempotent K_percpu addr_A boot).
    vm_compute; reflexivity.
  - split; [reflexivity|].
    apply (poll_idle_init_idempotent K_norelax addr_A boot boot).
    reflexivity.
Defined.

(** The broadcast-timer flag is computed from the states as the driver
    supplied them, before the polling state takes entry 0.  When the only
    state that carries [TIMER_STOP] is the one at index 0, a successful
    registration enables the broadcast timer and leaves the flag set,
    although no state of the registered table carries [TIMER_STOP] any
    more. *)
Theorem flag_follows_supplied_states (K : kconfig) (l : loc)
    (d : cpuidle_driver) (r r' : registry) (s0 : cpuidle_state)
    (rest : list cpuidle_state) :
  CONFIG_ARCH_HAS_CPU_RELAX K = true →
  has_flag (CPUIDLE_FLAG_TIME_VALID K) (CPUIDLE_FLAG_TIMER_STOP K) = false →
  mem r !! l = Some d → wf_driver d →
  states d = s0 :: rest → timer_stop K s0 = true →
  Forall (λ s, timer_stop K s = false) rest →
  cpuidle_register_driver K (Some l) r = Some (0%Z, r') →
  ∃ d', mem r' !! l = Some d' ∧ bctimer d' = true ∧
        needs_timer_stop K d' = false ∧
        broadcast_calls r' =
          broadcast_calls r ++
          [(CLOCK_EVT_NOTIFY_BROADCAST_ON, mask_of K d)].
Proof.
  intros Hrelax Hvalid Hd Hwf Hst Hs0 Hrest Hrun.
  apply (register_sound K l d) in Hrun; [|done].
  apply register_outcome_ok in Hrun
    as (b & Hsc & _ & _ & Hb & _ & Hmem & _ & Hbc & _).
  assert (∃ n, Z.to_nat (state_count d) = S n) as [n Hn].
  { destruct Hwf as (Hc & _). exists (Z.to_nat (state_count d - 1)). lia. }
  assert (∀ k, existsb (timer_stop K) (take k rest) = false) as Hnone.
  { intros k. apply not_true_is_false. rewrite existsb_exists.
    intros (s & Hin & Hs). apply list_elem_of_In in Hin.
    apply elem_of_take in Hin as (i & Hi & _).
    apply list_elem_of_lookup_2 in Hi.
    rewrite Forall_forall in Hrest. rewrite (Hrest s Hi) in Hs. done. }
  assert (needs_timer_stop K d = true) as Hneeds.
  { unfold needs_timer_stop, state_table. rewrite Hst, Hn. cbn.
    by rewrite Hs0. }
  rewrite (Hb Hwf), Hneeds in Hmem, Hbc. cbn [orb] in Hmem, Hbc.
  exists (finalize K (init_with K true d)).
  rewrite Hmem, lookup_insert_eq. unfold finalize. rewrite Hrelax.
  split_and!; try done.
  unfold needs_timer_stop, state_table. cbn. rewrite Hst, Hn. cbn.
  unfold timer_stop at 1. cbn. rewrite Hvalid. apply Hnone.
Qed.

Lemma flag_follows_supplied_states_witness :
  ∃ d', mem (after K_percpu [Register (Some addr_F)] boot_F) !! addr_F
          = Some d' ∧
        bctimer d' = true ∧ needs_timer_stop K_percpu d' = false ∧
        broadcast_calls (after K_percpu [Register (Some addr_F)] boot_F) =
          broadcast_calls boot_F ++
          [(CLOCK_EVT_NOTIFY_BROADCAST_ON, mask_of K_percpu drv_F)].
Proof.
  apply (flag_follows_supplied_states K_percpu addr_F drv_F boot_F _
           state_deep [state_shallow]).
  - reflexivity.
  - reflexivity.
  - vm_compute; reflexivity.
  - vm_compute. intuition discriminate.
  - reflexivity.
  - reflexivity.
  - repeat constructor.
  - vm_compute; reflexivity.
Defined.

(** ** Registering again *)



(** A registration refused with [-EBUSY] can be tried again: whatever
    happens to the slots and to the other drivers in between, once the
    mask of the driver is free (and the framework enabled) the registration
    of the same driver object succeeds and every unit of its mask is
    associated with it. *)
Theorem refused_registration_can_be_retried (K : kconfig) (l : loc)
    (d : cpuidle_driver) (r r1 r2 : registry) :
  mem r !! l = Some d → wf_driver d →
  cpuidle_register_driver K (Some l) r = Some ((- EBUSY)%Z, r1) →
  mem r2 !! l = mem r1 !! l → off r2 = false →
  mask_free K r2 (mask_of K d) →
  ∃ r3, cpuidle_register_driver K (Some l) r2 = Some (0%Z, r3) ∧
        ∀ cpu, cpu ∈ units K (mask_of K d) → associated K r3 cpu l.
Proof.
  intros Hd Hwf Hrun Hsame Hoff Hfree.
  apply (register_sound K l d) in Hrun; [|done].
  assert (state_count d ≠ 0%Z) as Hsc by (by inversion Hrun).
  apply register_outcome_busy in Hrun as (b & _ & _ & Hmem & _).
  set (d1 := init_with K b d).
  assert (mem r2 !! l = Some d1) as Hd1
    by (rewrite Hsame, Hmem; apply lookup_insert_eq).
  assert (mask_of K d1 = mask_of K d) as Hmask by done.
  assert (wf_driver d1) as Hwf1 by (destruct Hwf as (Hc & Hlen); by split).
  assert (mask_free K r2 (mask_of K d1)) as Hfree1 by (by rewrite Hmask).
  destruct (register_free_succeeds K l d1 r2 Hd1 Hwf1 Hsc Hoff Hfree1)
    as (r3 & Hrun3).
  exists r3. split; [done|].
  apply (register_sound K l d1) in Hrun3; [|done].
  apply register_outcome_ok in Hrun3
    as (b3 & _ & _ & _ & _ & _ & _ & _ & _ & _ & Hin & _).
  intros cpu Hcpu. apply Hin. by rewrite Hmask.
Qed.

Lemma refused_registration_can_be_retried_witness :
  ∃ r3, cpuidle_register_driver K_percpu (Some addr_C)
          (after K_percpu [Register ptr_A; Register (Some addr_C);
                           Unregister ptr_A] boot) = Some (0%Z, r3) ∧
        ∀ cpu, cpu ∈ units K_percpu (mask_of K_percpu drv_C) →
               associated K_percpu r3 cpu addr_C.
Proof.
  apply (refused_registration_can_be_retried K_percpu addr_C drv_C reg_A
           (after K_percpu [Register (Some addr_C)] reg_A)).
  - vm_compute; reflexivity.
  - vm_compute. intuition discriminate.
  - vm_compute; reflexivity.
  - vm_compute; reflexivity.
  - vm_compute; reflexivity.
  - intros cpu _. vm_compute. reflexivity.
Defined.

(** ** The cluster of a CPU *)

(** On a platform whose CPUs sit in the clusters below [MAX_CLUSTERS]:
    [cpu_to_cluster] gives [MAX_CLUSTERS], for every CPU alike, exactly
    when switching is enabled, and otherwise the cluster of the CPU; after
    [set_switching_enabled(x)] switching is enabled exactly when the build
    has [CONFIG_BL_SWITCHER] and [x] is true, so that without the switcher
    [cpu_to_cluster] is always the cluster of the CPU. *)
Theorem cpu_to_cluster_switching (CONFIG_BL_SWITCHER : bool)
    (topology_physical_package_id : Z → Z) :
  (∀ cpu, (0 ≤ topology_physical_package_id cpu
           < BigLittle.MAX_CLUSTERS)%Z) →
  ∀ (cpu : Z) (x st : bool),
    (BigLittle.cpu_to_cluster CONFIG_BL_SWITCHER
       topology_physical_package_id cpu st = BigLittle.MAX_CLUSTERS ↔
     BigLittle.is_bL_switching_enabled CONFIG_BL_SWITCHER st = true) ∧
    (BigLittle.is_bL_switching_enabled CONFIG_BL_SWITCHER st = false →
     BigLittle.cpu_to_cluster CONFIG_BL_SWITCHER
       topology_physical_package_id cpu st
     = topology_physical_package_id cpu) ∧
    BigLittle.is_bL_switching_enabled CONFIG_BL_SWITCHER
      (BigLittle.set_switching_enabled CONFIG_BL_SWITCHER x st)
    = CONFIG_BL_SWITCHER && x ∧
    (CONFIG_BL_SWITCHER = false →
     BigLittle.cpu_to_cluster CONFIG_BL_SWITCHER
       topology_physical_package_id cpu
       (BigLittle.set_switching_enabled CONFIG_BL_SWITCHER x st)
     = topology_physical_package_id cpu).
Proof.
  intros Hrange cpu x st. specialize (Hrange cpu).
  unfold BigLittle.cpu_to_cluster, BigLittle.is_bL_switching_enabled,
    BigLittle.set_switching_enabled.
  destruct CONFIG_BL_SWITCHER, st, x; cbn; split_and!; try done;
    split; try done; lia.
Qed.

Lemma cpu_to_cluster_switching_witness :
  (BigLittle.cpu_to_cluster true BigLittle.two_clusters 3 true
     = BigLittle.MAX_CLUSTERS ↔
   BigLittle.is_bL_switching_enabled true true = true) ∧
  (BigLittle.is_bL_switching_enabled true true = false →
   BigLittle.cpu_to_cluster true BigLittle.two_clusters 3 true
   = BigLittle.two_clusters 3) ∧
  BigLittle.is_bL_switching_enabled true
    (BigLittle.set_switching_enabled true false true)
  = true && false ∧
  (true = false →
   BigLittle.cpu_to_cluster true BigLittle.two_clusters 3
     (BigLittle.set_switching_enabled true false true)
   = BigLittle.two_clusters 3).
Proof.
  apply (cpu_to_cluster_switching true BigLittle.two_clusters).
  intros cpu. unfold BigLittle.two_clusters, BigLittle.A15_CLUSTER,
    BigLittle.A7_CLUSTER, BigLittle.MAX_CLUSTERS.
  destruct (cpu <? 2)%Z; lia.
Defined.

(** ** Lookups *)

(** What [cpuidle_driver_ref] returns is what [cpuidle_get_driver] finds on
    the same CPU and what [cpuidle_get_cpu_driver] finds for a device of
    that CPU; a NULL device has no driver; and over any run of acquisitions
    and releases, reported ones included, every lookup, from every CPU and
    for every device, finds what it found before. *)
Theorem lookups_stable_under_references (K : kconfig) (os : list op)
    (r r' : registry) :
  Forall counts_only os → run K os r = Some r' →
  (∀ dev, cpuidle_get_cpu_driver K dev r' = cpuidle_get_cpu_driver K dev r) ∧
  (∀ cpu, cpuidle_get_driver K cpu r' = cpuidle_get_driver K cpu r) ∧
  (∀ cpu p r'', cpuidle_driver_ref K cpu r' = Some (p, r'') →
                p = cpuidle_get_driver K cpu r ∧
                p = cpuidle_get_cpu_driver K (Some cpu) r) ∧
  cpuidle_get_cpu_driver K None r' = None.
Proof.
  intros Hos Hrun.
  assert (∀ cpu, __cpuidle_get_cpu_driver K r' cpu =
                 __cpuidle_get_cpu_driver K r cpu) as Hsame.
  { revert r Hrun. induction Hos as [|o os (cpu0 & Ho) _ IH];
      intros r Hrun cpu.
    - by injection Hrun as <-.
    - cbn [run] in Hrun. apply bind_Some in Hrun as (r1 & Hstep & Hrun).
      rewrite (IH r1 Hrun cpu). clear IH.
      destruct Ho as [-> | ->]; cbn in Hstep.
      + apply fmap_Some in Hstep as ([p r2] & Href & ->). cbn.
        revert Href. unfold cpuidle_driver_ref, cpuidle_get_driver.
        destruct (__cpuidle_get_cpu_driver K r cpu0) as [l0|].
        * intros Href. apply bind_Some in Href as (d0 & _ & [= <- <-]).
          apply get_cpu_driver_store.
        * by intros [= <- <-].
      + revert Hstep. unfold cpuidle_driver_unref, cpuidle_get_driver.
        destruct (__cpuidle_get_cpu_driver K r cpu0) as [l0|].
        * intros Href. apply bind_Some in Href as (d0 & _ & Href).
          unfold WARN_ON in Href.
          destruct (refcnt d0 <=? 0)%Z; cbn in Href; injection Href as <-.
          -- unfold __cpuidle_get_cpu_driver.
             by destruct (CONFIG_CPU_IDLE_MULTIPLE_DRIVERS K).
          -- apply get_cpu_driver_store.
        * by intros [= <-]. }
  split_and!.
  - intros [cpu|]; cbn; [apply Hsame|done].
  - intros cpu. apply Hsame.
  - intros cpu p r'' Href. cbn. unfold cpuidle_get_driver.
    rewrite <- Hsame. revert Href.
    unfold cpuidle_driver_ref, cpuidle_get_driver.
    destruct (__cpuidle_get_cpu_driver K r' cpu) as [l0|].
    + intros Href. by apply bind_Some in Href as (d0 & _ & [= <- <-]).
    + by intros [= <- <-].
  - done.
Qed.

Lemma lookups_stable_under_references_witness :
  (∀ dev, cpuidle_get_cpu_driver K_percpu dev
            (after K_percpu [Acquire 0; Acquire 1; Release 2; Release 0]
                   reg_A)
          = cpuidle_get_cpu_driver K_percpu dev reg_A) ∧
  (∀ cpu, cpuidle_get_driver K_percpu cpu
            (after K_percpu [Acquire 0; Acquire 1; Release 2; Release 0]
                   reg_A)
          = cpuidle_get_driver K_percpu cpu reg_A) ∧
  (∀ cpu p r'',
     cpuidle_driver_ref K_percpu cpu
       (after K_percpu [Acquire 0; Acquire 1; Release 2; Release 0] reg_A)
     = Some (p, r'') →
     p = cpuidle_get_driver K_percpu cpu reg_A ∧
     p = cpuidle_get_cpu_driver K_percpu (Some cpu) reg_A) ∧
  cpuidle_get_cpu_driver K_percpu None
    (after K_percpu [Acquire 0; Acquire 1; Release 2; Release 0] reg_A)
  = None.
Proof.
  apply (lookups_stable_under_references K_percpu
           [Acquire 0; Acquire 1; Release 2; Release 0] reg_A).
  - repeat constructor; eexists; (by left) || (by right).
  - vm_compute; reflexivity.
Defined.

(** * Invariants of the registries the operations lead to *)

Section ReachableFacts.

Variable K : kconfig.

(** ** Initialisation within the states array *)


(** A well-formed driver object is initialised within its states array. *)
Lemma wf_driver_scan_in_bounds (d : cpuidle_driver) :
  wf_driver d → scan_in_bounds d.
Proof.
  intros (Hsc & Hlen). unfold scan_in_bounds.
  rewrite wrap_int_id by (unfold int_range, INT_MIN, INT_MAX in *; lia).
  destruct (decide (state_count d = 0%Z)) as [->|Hne]; [left; lia|].
  right. lia.
Qed.





(** ** What one operation does to the slots *)





(** ** The framework is enabled where a unit is held *)



(** ** A driver holds its whole mask, or no unit *)




End ReachableFacts.

(** * The claims on conflicts, on the registries the operations lead to *)






(** * The claims on the broadcast timer and on acquisitions *)

(** C4, as amended.  A successful [register(D)] calls the coordinator's
    enable once, over D's mask, when a state of D carries [TIMER_STOP] or
    the object of D came with the flag already set, and does not call it
    when no state carries [TIMER_STOP] and the flag was clear at the call.
    An [unregister(D)] that goes through calls disable, over D's mask, if
    and only if the flag of D is set when it is called.  After a successful
    registration of D, however many references are taken and released and
    whatever is done with other drivers, but with no further registration
    or unregistration of D, that is: if and only if enable was called at
    the registration. *)
Theorem C4_broadcast_timer_mirroring (K : kconfig) (l : loc) :
  (∀ (d : cpuidle_driver) (r r1 : registry),
     mem r !! l = Some d → wf_driver d →
     cpuidle_register_driver K (Some l) r = Some (0%Z, r1) →
     let enabled := needs_timer_stop K d || bctimer d in
     broadcast_calls r1 =
       broadcast_calls r ++
       (if enabled
        then [(CLOCK_EVT_NOTIFY_BROADCAST_ON, mask_of K d)] else []) ∧
     (bctimer d = false → enabled = needs_timer_stop K d) ∧
     ∀ os r2 d2,
       Forall (leaves_registration l) os → run K os r1 = Some r2 →
       mem r2 !! l = Some d2 → (refcnt d2 ≤ 0)%Z →
       ∃ r3, cpuidle_unregister_driver K (Some l) r2 = Some r3 ∧
             warnings r3 = warnings r2 ∧
             broadcast_calls r3 =
               broadcast_calls r2 ++
               (if enabled
                then [(CLOCK_EVT_NOTIFY_BROADCAST_OFF, mask_of K d)]
                else [])) ∧
  (∀ (d : cpuidle_driver) (m : cpumask_t) (r : registry),
     mem r !! l = Some d → (refcnt d ≤ 0)%Z → cpumask d = Some m →
     ∃ r', cpuidle_unregister_driver K (Some l) r = Some r' ∧
           warnings r' = warnings r ∧
           broadcast_calls r' =
             broadcast_calls r ++
             (if bctimer d
              then [(CLOCK_EVT_NOTIFY_BROADCAST_OFF, m)] else [])).
Proof.
  split.
  - intros d r r1 Hd Hwf Hrun enabled.
    apply (register_sound K l d) in Hrun; [|done].
    apply register_outcome_ok in Hrun
      as (b & _ & _ & _ & Hb & _ & Hmem & _ & Hbc & _).
    rewrite (Hb Hwf) in Hbc, Hmem. fold enabled in Hbc, Hmem.
    split; [exact Hbc|]. split.
    { intros Hclear. unfold enabled. by rewrite Hclear, orb_false_r. }
    intros os r2 d2 Hos Hrun2 Hd2 Hrc.
    destruct (run_frame K os l r1 r2 (finalize K (init_with K enabled d)))
      as (d2' & Hd2' & Hflag & Hmask & _); [|done|done|].
    { rewrite Hmem. apply lookup_insert_eq. }
    assert (d2' = d2) as -> by congruence.
    assert (bctimer d2 = enabled ∧ cpumask d2 = Some (mask_of K d))
      as [Hflag2 Hmask2].
    { rewrite Hflag, Hmask. unfold finalize.
      by destruct (CONFIG_ARCH_HAS_CPU_RELAX K). }
    destruct (unregister_accepted K l r2 d2 (mask_of K d) Hd2 Hrc Hmask2)
      as (r3 & Hun & _ & _ & Hw & Hbc3 & _).
    exists r3. rewrite Hflag2 in Hbc3. done.
  - intros d m r Hd Hrc Hm.
    destruct (unregister_accepted K l r d m Hd Hrc Hm)
      as (r' & Hun & _ & _ & Hw & Hbc & _).
    by exists r'.
Qed.

Lemma C4_broadcast_timer_mirroring_witness :
  (broadcast_calls reg_A =
     broadcast_calls boot ++ [(CLOCK_EVT_NOTIFY_BROADCAST_ON, 3%Z)] ∧
   ∃ r3, cpuidle_unregister_driver K_percpu (Some addr_A)
           (after K_percpu [Acquire 0; Release 1] reg_A) = Some r3 ∧
         warnings r3
           = warnings (after K_percpu [Acquire 0; Release 1] reg_A) ∧
         broadcast_calls r3 =
           broadcast_calls (after K_percpu [Acquire 0; Release 1] reg_A) ++
           [(CLOCK_EVT_NOTIFY_BROADCAST_OFF, 3%Z)]) ∧
  (∃ r', cpuidle_unregister_driver K_percpu (Some addr_A) reg_A = Some r' ∧
         warnings r' = warnings reg_A ∧
         broadcast_calls r' =
           broadcast_calls reg_A ++ [(CLOCK_EVT_NOTIFY_BROADCAST_OFF, 3%Z)]).
Proof.
  destruct (C4_broadcast_timer_mirroring K_percpu addr_A) as (Hreg & Hunreg).
  split.
  - destruct (Hreg drv_A boot reg_A) as (Hon & _ & Hoff).
    + reflexivity.
    + vm_compute. intuition discriminate.
    + vm_compute; reflexivity.
    + split; [exact Hon|].
      apply (Hoff [Acquire 0; Release 1] _ drv_A_registered).
      * repeat constructor; discriminate.
      * vm_compute; reflexivity.
      * vm_compute; reflexivity.
      * vm_compute; discriminate.
  - apply (Hunreg drv_A_registered 3%Z reg_A).
    + vm_compute; reflexivity.
    + vm_compute; discriminate.
    + reflexivity.
Defined.

(** C4 as stated fails, in both halves.  The registration of a driver none
    of whose states carries [TIMER_STOP] calls enable when the driver
    object arrives with its flag set; registry operations alone lead there
    as well: F, whose only [TIMER_STOP] state sits at index 0, is
    registered, refused when registered again (which clears its units and
    keeps its flag), and registered a third time, with enable called
    although the polling state has long replaced the state at index 0.
    And an unregistration calls disable where no enable was called: the
    registration of driver C, refused with [-EBUSY] while A holds CPUs 0
    and 1, calls nothing and leaves the flag of C set; the unregistration
    of C that follows goes through, without a report, and calls disable
    over the mask of C. *)
Lemma C4_enable_and_disable_unmatched :
  (needs_timer_stop K_percpu drv_stale = false ∧
   mem boot !! addr_stale = Some drv_stale ∧
   fst <$> cpuidle_register_driver K_percpu (Some addr_stale) boot
     = Some 0%Z ∧
   (broadcast_calls ∘ snd) <$>
     cpuidle_register_driver K_percpu (Some addr_stale) boot
     = Some [(CLOCK_EVT_NOTIFY_BROADCAST_ON, 3%Z)]) ∧
  ((d ← mem (after K_percpu [Register (Some addr_F); Register (Some addr_F)]
                    boot_F) !! addr_F;
    Some (needs_timer_stop K_percpu d)) = Some false ∧
   fst <$> cpuidle_register_driver K_percpu (Some addr_F)
             (after K_percpu [Register (Some addr_F); Register (Some addr_F)]
                    boot_F) = Some 0%Z ∧
   broadcast_calls
     (after K_percpu [Register (Some addr_F); Register (Some addr_F);
                      Register (Some addr_F)] boot_F)
     = broadcast_calls
         (after K_percpu [Register (Some addr_F); Register (Some addr_F)]
                boot_F) ++
       [(CLOCK_EVT_NOTIFY_BROADCAST_ON, 3%Z)]) ∧
  (mem reg_A !! addr_C = Some drv_C ∧
   fst <$> cpuidle_register_driver K_percpu (Some addr_C) reg_A
     = Some (- EBUSY)%Z ∧
   broadcast_calls (after K_percpu [Register (Some addr_C)] reg_A)
     = broadcast_calls reg_A ∧
   warnings (after K_percpu [Register (Some addr_C)] reg_A)
     = warnings reg_A ∧
   (r ← run K_percpu [Register (Some addr_C)] reg_A;
    r' ← cpuidle_unregister_driver K_percpu (Some addr_C) r;
    Some (warnings r', broadcast_calls r'))
     = Some (warnings reg_A,
             broadcast_calls reg_A ++
             [(CLOCK_EVT_NOTIFY_BROADCAST_OFF, 15%Z)])).
Proof. split_and!; vm_compute; reflexivity. Qed.

(** C7, as amended.  [acquire] on unit [cpu], one critical section: with
    no driver associated with the unit it returns NULL and the registry is
    as before; otherwise it returns the associated driver, whose reference
    count has gone through the increment of a C [int], nothing else in the
    registry or in the driver object having changed.  The increment gives
    exactly one more for every count below [INT_MAX]; at [INT_MAX] it
    wraps to [INT_MIN]. *)
Theorem C7_acquire (K : kconfig) (cpu : nat) (r : registry) :
  (__cpuidle_get_cpu_driver K r cpu = None →
   cpuidle_driver_ref K cpu r = Some (None, r)) ∧
  (∀ l d,
     __cpuidle_get_cpu_driver K r cpu = Some l → mem r !! l = Some d →
     ∃ r', cpuidle_driver_ref K cpu r = Some (Some l, r') ∧
           mem r' = <[l:=set_refcnt (wrap_int (refcnt d + 1)) d]> (mem r) ∧
           same_but_mem r r' ∧
           ((INT_MIN ≤ refcnt d < INT_MAX)%Z →
            wrap_int (refcnt d + 1) = (refcnt d + 1)%Z) ∧
           (refcnt d = INT_MAX → wrap_int (refcnt d + 1) = INT_MIN)).
Proof.
  split; [apply driver_ref_none|].
  intros l d Hget Hd. rewrite (driver_ref_some K cpu r l d Hget Hd).
  eexists. split; [done|]. split; [done|]. split; [by repeat split|].
  split.
  - intros Hrc. apply wrap_int_id.
    unfold int_range, INT_MIN, INT_MAX in *. lia.
  - intros ->. reflexivity.
Qed.

Lemma C7_acquire_witness :
  cpuidle_driver_ref K_percpu 3 reg_A = Some (None, reg_A) ∧
  (∃ r', cpuidle_driver_ref K_percpu 0 reg_A = Some (Some addr_A, r') ∧
         mem r' = <[addr_A:=set_refcnt (wrap_int (refcnt drv_A_registered + 1))
                              drv_A_registered]> (mem reg_A) ∧
         same_but_mem reg_A r' ∧
         ((INT_MIN ≤ refcnt drv_A_registered < INT_MAX)%Z →
          wrap_int (refcnt drv_A_registered + 1)
          = (refcnt drv_A_registered + 1)%Z) ∧
         (refcnt drv_A_registered = INT_MAX →
          wrap_int (refcnt drv_A_registered + 1) = INT_MIN)) ∧
  (∃ r', cpuidle_driver_ref K_percpu 0 reg_A_saturated
           = Some (Some addr_A, r') ∧
         mem r' = <[addr_A:=set_refcnt
                              (wrap_int (refcnt drv_A_saturated + 1))
                              drv_A_saturated]> (mem reg_A_saturated) ∧
         same_but_mem reg_A_saturated r' ∧
         ((INT_MIN ≤ refcnt drv_A_saturated < INT_MAX)%Z →
          wrap_int (refcnt drv_A_saturated + 1)
          = (refcnt drv_A_saturated + 1)%Z) ∧
         (refcnt drv_A_saturated = INT_MAX →
          wrap_int (refcnt drv_A_saturated + 1) = INT_MIN)).
Proof.
  split; [|split].
  - apply (C7_acquire K_percpu 3). vm_compute; reflexivity.
  - apply (proj2 (C7_acquire K_percpu 0 reg_A) addr_A drv_A_registered).
    + vm_compute; reflexivity.
    + vm_compute; reflexivity.
  - apply (proj2 (C7_acquire K_percpu 0 reg_A_saturated) addr_A
             drv_A_saturated).
    + vm_compute; reflexivity.
    + vm_compute; reflexivity.
Defined.

(** C7 as stated fails: after [INT_MAX] acquisitions on CPU 0 the count of
    A stands at [INT_MAX], and one more acquisition leaves it at [INT_MIN],
    not at one more. *)
Lemma C7_increment_wraps_at_INT_MAX :
  run K_percpu [Register ptr_A] boot = Some reg_A ∧
  run K_percpu acquire_INT_MAX reg_A = Some reg_A_saturated ∧
  associated K_percpu reg_A_saturated 0 addr_A ∧
  (refcnt <$> mem reg_A_saturated !! addr_A) = Some INT_MAX ∧
  (res ← cpuidle_driver_ref K_percpu 0 reg_A_saturated;
   d ← mem (snd res) !! addr_A;
   Some (fst res, refcnt d)) = Some (Some addr_A, INT_MIN) ∧
  INT_MIN ≠ (INT_MAX + 1)%Z.
Proof.
  split; [vm_compute; reflexivity|]. split.
  { unfold acquire_INT_MAX, reg_A_saturated.
    rewrite (acquire_n K_percpu 0 addr_A (Z.to_nat INT_MAX) reg_A
               drv_A_registered).
    - rewrite Z2Nat.id by discriminate. reflexivity.
    - vm_compute; reflexivity.
    - vm_compute; reflexivity.
    - discriminate.
    - rewrite Z2Nat.id by discriminate. discriminate. }
  split_and!; try (vm_compute; reflexivity). discriminate.
Qed.
